(** * XaunsurnDS: the lock-guarded FIFO queue and LIFO stack

    A shallow embedding of [xaunsurnds/core/XSQueue.py] and
    [xaunsurnds/core/XSStack.py].  Both classes wrap one
    [collections.deque] behind one [threading.Lock]; every method is
    [with self._lock: <one or two deque operations>].

    The embedding keeps what the Python code has:
    - a heap of deque objects, because [restore] rebinds [self._items] to a
      new deque and [__iter__] hands out an iterator that aliases the deque
      that was current when it was created;
    - exceptions that leave the mutations made so far in place;
    - the lock, a flag that [with_lock] sets on entry and clears on every
      exit path.

    [__repr__] is not embedded: it formats the items with their own
    [repr], which the containers neither define nor constrain. *)

From Stdlib Require Import ZArith String Ascii List Bool Lia.
From stdpp Require Import base option list.
Import ListNotations.

Local Open Scope string_scope.
Local Open Scope Z_scope.
Local Open Scope list_scope.

(** ** Python values and exceptions *)

(** The items are opaque to the containers; the constructors below are the
    values the methods tell apart by type ([isinstance]) or hand back
    ([None] from [peek], a [list] from [snapshot]).  They are built-in
    values: none of them runs code of its own when it is compared or
    iterated over. *)
#[warnings="-register-all"]
Inductive PyVal : Type :=
| PyNone
| PyBool (b : bool)
| PyInt (z : Z)
| PyStr (s : string)
| PyList (xs : list PyVal)
| PyTuple (xs : list PyVal).

Inductive PyType : Type :=
| NoneType | bool_t | int_t | str_t | list_t | tuple_t.

Definition type_of (v : PyVal) : PyType :=
  match v with
  | PyNone => NoneType
  | PyBool _ => bool_t
  | PyInt _ => int_t
  | PyStr _ => str_t
  | PyList _ => list_t
  | PyTuple _ => tuple_t
  end.

(** [bool] is the one builtin here that subclasses another ([int]). *)
Definition issubclass (a b : PyType) : bool :=
  match a, b with
  | NoneType, NoneType | bool_t, bool_t | int_t, int_t
  | str_t, str_t | list_t, list_t | tuple_t, tuple_t => true
  | bool_t, int_t => true
  | _, _ => false
  end.

(** [isinstance(v, (t1, ..., tn))]. *)
Definition isinstance (v : PyVal) (ts : list PyType) : bool :=
  existsb (issubclass (type_of v)) ts.

(** The items [iter(v)] produces, [None] when [v] is not iterable. *)
Definition iter_items (v : PyVal) : option (list PyVal) :=
  match v with
  | PyList xs | PyTuple xs => Some xs
  | PyStr s => Some (map (fun c => PyStr (String c EmptyString)) (list_ascii_of_string s))
  | PyNone | PyBool _ | PyInt _ => None
  end.

(** [a == b] on these values: [None] equals only itself; [bool] and [int]
    compare as numbers ([True == 1]); strings compare by characters; lists
    compare item by item with lists, tuples with tuples; values of
    unrelated types are unequal. *)
Fixpoint py_eq (a b : PyVal) : bool :=
  let fix items_eq (xs ys : list PyVal) : bool :=
    match xs, ys with
    | [], [] => true
    | x :: xs', y :: ys' => py_eq x y && items_eq xs' ys'
    | _, _ => false
    end in
  match a, b with
  | PyNone, PyNone => true
  | PyBool x, PyBool y => Bool.eqb x y
  | PyBool x, PyInt z | PyInt z, PyBool x => z =? (if x then 1 else 0)
  | PyInt x, PyInt y => x =? y
  | PyStr s, PyStr t => String.eqb s t
  | PyList xs, PyList ys => items_eq xs ys
  | PyTuple xs, PyTuple ys => items_eq xs ys
  | _, _ => false
  end.

Inductive PyExc : Type :=
| IndexError (msg : string)
| ValueError (msg : string)
| TypeError (msg : string)
| RuntimeError (msg : string).

(** The two error kinds of the specification (section 7) and the Python
    exceptions that stand for them: [IndexError] is EmptyContainer,
    [ValueError] and [TypeError] are InvalidArgument.  [RuntimeError] is
    neither. *)
Inductive ErrorKind : Type := EmptyContainer | InvalidArgument.

Definition error_kind (e : PyExc) : option ErrorKind :=
  match e with
  | IndexError _ => Some EmptyContainer
  | ValueError _ | TypeError _ => Some InvalidArgument
  | RuntimeError _ => None
  end.

(** ** The store *)

Definition loc := nat.

(** A [collections.deque] object: its items left to right, and CPython's
    [state] counter, bumped by every operation that changes the length and
    read by the deque's iterators. *)
Record Deque : Type := mkDeque { elems : list PyVal; state : nat }.

(** One container object ([__slots__ = ("_items", "_lock")]) and the heap
    its [_items] attribute points into. *)
Record World : Type := mkWorld {
  heap : list Deque;
  _items : loc;
  _lock : bool
}.

Definition set_heap (h : list Deque) (w : World) : World :=
  {| heap := h; _items := _items w; _lock := _lock w |}.
Definition set_items (l : loc) (w : World) : World :=
  {| heap := heap w; _items := l; _lock := _lock w |}.
Definition set_lock (b : bool) (w : World) : World :=
  {| heap := heap w; _items := _items w; _lock := b |}.

(** The world with the object at [l] replaced by [d]. *)
Definition store (l : loc) (d : Deque) (w : World) : World :=
  set_heap (<[l := d]> (heap w)) w.

(** ** Computations: state, exceptions, and calls that never return *)

(** [Stuck] is the outcome no finished Python call shows: the call blocks
    for ever on a lock that is held, or the world refers to an object that
    is not there (no Python run builds such a world). *)
Inductive Result (A : Type) : Type :=
| Ok (a : A)
| Raise (e : PyExc)
| Stuck.
Arguments Ok {A} a.
Arguments Raise {A} e.
Arguments Stuck {A}.

Definition M (A : Type) : Type := World -> Result A * World.

Definition ret {A} (a : A) : M A := fun w => (Ok a, w).
Definition raise {A} (e : PyExc) : M A := fun w => (Raise e, w).
Definition stuck {A} : M A := fun w => (Stuck, w).
Definition bind {A B} (m : M A) (k : A -> M B) : M B :=
  fun w =>
    match m w with
    | (Ok a, w') => k a w'
    | (Raise e, w') => (Raise e, w')
    | (Stuck, w') => (Stuck, w')
    end.

Declare Scope py_scope.
Delimit Scope py_scope with py.
Notation "x <- m ;; k" := (bind m (fun x => k))
  (at level 100, m at next level, right associativity) : py_scope.
Notation "m ;; k" := (bind m (fun _ => k))
  (at level 100, right associativity) : py_scope.
Local Open Scope py_scope.

(** [for x in xs: f(x)]. *)
Fixpoint forM_ {A} (xs : list A) (f : A -> M unit) : M unit :=
  match xs with
  | [] => ret tt
  | x :: xs' => f x ;; forM_ xs' f
  end.

(** [[m() for _ in range(n)]]. *)
Fixpoint replicateM {A} (n : nat) (m : M A) : M (list A) :=
  match n with
  | O => ret []
  | S n' => x <- m ;; xs <- replicateM n' m ;; ret (x :: xs)
  end.

(** [with self._lock: body].  [threading.Lock] is not reentrant: acquiring
    it while it is held never returns.  The lock is released when the body
    returns and when it raises. *)
Definition with_lock {A} (body : M A) : M A :=
  fun w =>
    if _lock w then (Stuck, w)
    else let '(r, w') := body (set_lock true w) in (r, set_lock false w').

(** [self._items] read, and [self._items = l]. *)
Definition self_items : M loc := fun w => (Ok (_items w), w).
Definition assign_items (l : loc) : M unit := fun w => (Ok tt, set_items l w).

(** ** [collections.deque] *)

Module deque.

Definition get (l : loc) : M Deque :=
  fun w => match heap w !! l with
           | Some d => (Ok d, w)
           | None => (Stuck, w)
           end.

Definition put (l : loc) (d : Deque) : M unit :=
  fun w => (Ok tt, store l d w).

(** [deque()]: a new, empty object. *)
Definition new : M loc :=
  fun w => (Ok (length (heap w)), set_heap (heap w ++ [mkDeque [] 0]) w).

Definition append (l : loc) (x : PyVal) : M unit :=
  d <- get l ;;
  put l (mkDeque (elems d ++ [x]) (S (state d))).

Definition popleft (l : loc) : M PyVal :=
  d <- get l ;;
  match elems d with
  | [] => raise (IndexError "pop from an empty deque")
  | x :: xs => put l (mkDeque xs (S (state d))) ;; ret x
  end.

Definition pop (l : loc) : M PyVal :=
  d <- get l ;;
  match last (elems d) with
  | None => raise (IndexError "pop from an empty deque")
  | Some x => put l (mkDeque (removelast (elems d)) (S (state d))) ;; ret x
  end.

(** [len(d)] and the truth value of [d] ([not d] is [len(d) == 0]). *)
Definition len (l : loc) : M Z :=
  d <- get l ;; ret (Z.of_nat (length (elems d))).

Definition truth (l : loc) : M bool :=
  n <- len l ;; ret (negb (n =? 0)%Z).

(** Python indexing: a negative index counts from the right end. *)
Definition index (i : Z) (n : nat) : option nat :=
  let j := if i <? 0 then i + Z.of_nat n else i in
  if (0 <=? j) && (j <? Z.of_nat n) then Some (Z.to_nat j) else None.

(** [d[i]]. *)
Definition getitem (l : loc) (i : Z) : M PyVal :=
  d <- get l ;;
  match index i (length (elems d)) with
  | None => raise (IndexError "deque index out of range")
  | Some j =>
      match elems d !! j with
      | Some x => ret x
      | None => stuck
      end
  end.

(** [d[i] = v]: the length is unchanged, and so is [state]. *)
Definition setitem (l : loc) (i : Z) (v : PyVal) : M unit :=
  d <- get l ;;
  match index i (length (elems d)) with
  | None => raise (IndexError "deque index out of range")
  | Some j => put l (mkDeque (<[j := v]> (elems d)) (state d))
  end.

(** [d.clear()]: nothing to do, and no [state] change, on an empty deque. *)
Definition clear (l : loc) : M unit :=
  d <- get l ;;
  match elems d with
  | [] => ret tt
  | _ :: _ => put l (mkDeque [] (S (state d)))
  end.

(** [d.extend(iterable)]: one [append] per item. *)
Definition extend (l : loc) (v : PyVal) : M unit :=
  match iter_items v with
  | None => raise (TypeError "object is not iterable")
  | Some xs => forM_ xs (append l)
  end.

(** [deque(iterable)]. *)
Definition of_iterable (v : PyVal) : M loc :=
  l <- new ;; extend l v ;; ret l.

(** [d.reverse()]: in place, [state] unchanged. *)
Definition reverse (l : loc) : M unit :=
  d <- get l ;; put l (mkDeque (rev (elems d)) (state d)).

(** [list(d)]: a new list of the items, left to right. *)
Definition to_list (l : loc) : M PyVal :=
  d <- get l ;; ret (PyList (elems d)).

(** [v in d]: the items are compared with [v] by [==], left to right. *)
Definition contains (l : loc) (v : PyVal) : M bool :=
  d <- get l ;; ret (existsb (fun item => py_eq item v) (elems d)).

(** *** Iterators over a deque

    [iter(d)] and [reversed(d)] return an iterator that keeps a reference
    to [d], the value of [d.state] at creation, and the number of items
    still to yield.  [next] compares the two [state]s and raises
    [RuntimeError] when they differ; otherwise it reads the item at its
    position from [d] as [d] is now.  The two iterators differ in one
    point: the forward one compares the [state]s before it looks at its
    counter, the reversed one tests its counter first, so a reversed
    iterator that has nothing left to yield ends normally even after the
    deque has changed. *)
Record Iter : Type := mkIter {
  it_deque : loc;
  it_state : nat;
  it_counter : nat;
  it_reversed : bool
}.

Definition iter (l : loc) : M Iter :=
  d <- get l ;; ret (mkIter l (state d) (length (elems d)) false).

Definition reversed (l : loc) : M Iter :=
  d <- get l ;; ret (mkIter l (state d) (length (elems d)) true).

(** [next(it)]: [None] stands for [StopIteration]. *)
Definition next (it : Iter) : M (option (PyVal * Iter)) :=
  d <- get (it_deque it) ;;
  let mutated := negb (state d =? it_state it)%nat in
  let yield (c pos : nat) : M (option (PyVal * Iter)) :=
    match elems d !! pos with
    | Some x =>
        ret (Some (x, mkIter (it_deque it) (it_state it) c (it_reversed it)))
    | None => stuck
    end in
  if it_reversed it then
    match it_counter it with
    | O => ret None
    | S c =>
        if mutated
        then raise (RuntimeError "deque mutated during iteration")
        else yield c c
    end
  else
    if mutated
    then raise (RuntimeError "deque mutated during iteration")
    else
      match it_counter it with
      | O => ret None
      | S c => yield c (length (elems d) - S c)%nat
      end.

(** The loop of [list(it)]: [next] until [StopIteration]. *)
Fixpoint drain (fuel : nat) (it : Iter) : M (list PyVal) :=
  match fuel with
  | O => stuck
  | S fuel' =>
      r <- next it ;;
      match r with
      | None => ret []
      | Some (x, it') => xs <- drain fuel' it' ;; ret (x :: xs)
      end
  end.

(** [list(it)].  The iterator yields at most [it_counter it] items, so
    one more call of [next] than that reaches [StopIteration]. *)
Definition list_of_iter (it : Iter) : M PyVal :=
  xs <- drain (S (it_counter it)) it ;; ret (PyList xs).

End deque.

(** ** [class Queue]

    [XSQueue.py]; [XSStack.py] repeats the class word for word. *)

Module Queue.

(** [__init__]: [self._items = deque()], [self._lock = Lock()].  The new
    queue is built in a heap [h] of whatever objects exist already. *)
Definition __init__ (h : list Deque) : World :=
  {| heap := h ++ [mkDeque [] 0]; _items := length h; _lock := false |}.

Definition enqueue (item : PyVal) : M unit :=
  with_lock (l <- self_items ;; deque.append l item).

Definition dequeue : M PyVal :=
  with_lock (
    l <- self_items ;;
    b <- deque.truth l ;;
    if negb b then raise (IndexError "dequeue from empty queue")
    else l <- self_items ;; deque.popleft l).

Definition peek : M PyVal :=
  with_lock (
    l <- self_items ;;
    b <- deque.truth l ;;
    if b then l <- self_items ;; deque.getitem l 0
    else ret PyNone).

Definition is_empty : M bool :=
  with_lock (l <- self_items ;; b <- deque.truth l ;; ret (negb b)).

Definition size : M Z :=
  with_lock (l <- self_items ;; deque.len l).

Definition clear : M unit :=
  with_lock (l <- self_items ;; deque.clear l).

Definition bulk_enqueue (items : PyVal) : M unit :=
  with_lock (
    if negb (isinstance items [list_t; tuple_t])
    then raise (TypeError "bulk_enqueue expects a list or tuple of items")
    else l <- self_items ;; deque.extend l items).

Definition bulk_dequeue (count : Z) : M PyVal :=
  with_lock (
    if count <=? 0
    then raise (ValueError "bulk_dequeue expects a positive integer")
    else
      l <- self_items ;;
      n <- deque.len l ;;
      if count >? n
      then raise (IndexError "Not enough elements in queue to dequeue")
      else
        result <- replicateM (Z.to_nat count)
                    (l <- self_items ;; deque.popleft l) ;;
        ret (PyList result)).

Definition snapshot : M PyVal :=
  with_lock (l <- self_items ;; deque.to_list l).

Definition restore (snapshot : PyVal) : M unit :=
  with_lock (
    if negb (isinstance snapshot [list_t])
    then raise (TypeError "restore expects a list of items")
    else l <- deque.of_iterable snapshot ;; assign_items l).

Definition reverse : M unit :=
  with_lock (l <- self_items ;; deque.reverse l).

Definition contains (item : PyVal) : M bool :=
  with_lock (l <- self_items ;; deque.contains l item).

Definition __iter__ : M deque.Iter :=
  with_lock (l <- self_items ;; deque.iter l).

Definition __len__ : M Z := size.

(** [__enter__] returns [self]; [__exit__] clears. *)
Definition __enter__ : M unit := ret tt.
Definition __exit__ : M unit := clear.

End Queue.

(** ** [class Stack] ([XSStack.py]) *)

Module Stack.

Definition __init__ (h : list Deque) : World :=
  {| heap := h ++ [mkDeque [] 0]; _items := length h; _lock := false |}.

Definition push (item : PyVal) : M unit :=
  with_lock (l <- self_items ;; deque.append l item).

Definition pop : M PyVal :=
  with_lock (
    l <- self_items ;;
    b <- deque.truth l ;;
    if negb b then raise (IndexError "pop from empty stack")
    else l <- self_items ;; deque.pop l).

Definition peek : M PyVal :=
  with_lock (
    l <- self_items ;;
    b <- deque.truth l ;;
    if b then l <- self_items ;; deque.getitem l (-1)
    else ret PyNone).

Definition is_empty : M bool :=
  with_lock (l <- self_items ;; b <- deque.truth l ;; ret (negb b)).

Definition size : M Z :=
  with_lock (l <- self_items ;; deque.len l).

Definition clear : M unit :=
  with_lock (l <- self_items ;; deque.clear l).

Definition bulk_push (items : PyVal) : M unit :=
  with_lock (
    if negb (isinstance items [list_t; tuple_t])
    then raise (TypeError "bulk_push expects a list or tuple of items")
    else l <- self_items ;; deque.extend l items).

Definition bulk_pop (count : Z) : M PyVal :=
  with_lock (
    if count <=? 0
    then raise (ValueError "bulk_pop expects a positive integer")
    else
      l <- self_items ;;
      n <- deque.len l ;;
      if count >? n
      then raise (IndexError "Not enough elements in stack to pop")
      else
        result <- replicateM (Z.to_nat count)
                    (l <- self_items ;; deque.pop l) ;;
        ret (PyList result)).

Definition snapshot : M PyVal :=
  with_lock (l <- self_items ;; deque.to_list l).

Definition restore (snapshot : PyVal) : M unit :=
  with_lock (
    if negb (isinstance snapshot [list_t])
    then raise (TypeError "restore expects a list of items")
    else l <- deque.of_iterable snapshot ;; assign_items l).

Definition reverse : M unit :=
  with_lock (l <- self_items ;; deque.reverse l).

(** [self._items.append(self._items[-1])]. *)
Definition duplicate_top : M unit :=
  with_lock (
    l <- self_items ;;
    b <- deque.truth l ;;
    if negb b then raise (IndexError "Cannot duplicate top of empty stack")
    else
      l <- self_items ;;
      l' <- self_items ;;
      top <- deque.getitem l' (-1) ;;
      deque.append l top).

(** [self._items[-1], self._items[-2] = self._items[-2], self._items[-1]]:
    the right-hand side is read left to right, then the two targets are
    assigned left to right. *)
Definition swap_top : M unit :=
  with_lock (
    l <- self_items ;;
    n <- deque.len l ;;
    if n <? 2 then raise (IndexError "Not enough elements to swap top")
    else
      l <- self_items ;; below <- deque.getitem l (-2) ;;
      l <- self_items ;; top <- deque.getitem l (-1) ;;
      l <- self_items ;; deque.setitem l (-1) below ;;
      l <- self_items ;; deque.setitem l (-2) top).

Definition contains (item : PyVal) : M bool :=
  with_lock (l <- self_items ;; deque.contains l item).

(** [iter(reversed(self._items))]: [iter] of an iterator is that iterator. *)
Definition __iter__ : M deque.Iter :=
  with_lock (l <- self_items ;; deque.reversed l).

Definition __len__ : M Z := size.

Definition __enter__ : M unit := ret tt.
Definition __exit__ : M unit := clear.

End Stack.

(** ** What an observer sees of a world *)

(** The items of the container, left to right: head to tail for a queue,
    bottom to top for a stack. *)
Definition contents (w : World) : list PyVal :=
  match heap w !! _items w with
  | Some d => elems d
  | None => []
  end.

(** A world between two calls: the lock is free and [_items] refers to a
    deque of the heap. *)
Definition quiescent (w : World) : bool :=
  negb (_lock w) && bool_decide (is_Some (heap w !! _items w)).

(** ** Vocabulary of the statements *)

(** The error kind a call failed with, if it failed. *)
Definition failure_kind {A} (r : Result A * World) : option ErrorKind :=
  match fst r with
  | Raise e => error_kind e
  | Ok _ | Stuck => None
  end.

(** [m], run in [w], fails with an error of kind [k] and leaves the world
    [w']. *)
Definition fails {A} (m : M A) (w : World) (k : ErrorKind) (w' : World) : Prop :=
  failure_kind (m w) = Some k /\ snd (m w) = w'.

(** The container that a new one becomes when [xs] are added one by one
    ([enqueue] and [push] are the same [append]). *)
Definition built_from (xs : list PyVal) : World :=
  snd (forM_ xs Queue.enqueue (Queue.__init__ [])).

(** Create an iterator, let the container change, then consume the
    iterator with [list(it)]. *)
Definition iterate_after (make_iter : M deque.Iter) (change : M unit) : M PyVal :=
  it <- make_iter ;; change ;; deque.list_of_iter it.

(** Follows the specification's words (section 4, Iteration): iterating is
    "equivalent to iterating a copy taken atomically", so an iterator
    created in [w] is to yield the items [w] holds, head to tail for a
    queue and top to bottom for a stack, whatever is done to the container
    before the iterator is consumed. *)
Definition Queue_iteration_spec (w : World) : list PyVal := contents w.
Definition Stack_iteration_spec (w : World) : list PyVal := rev (contents w).

(** ** Callers *)

(** [with c: body] for a container [c]: [__enter__], the body, and
    [__exit__] on either way out of the body.  [__exit__] returns [None],
    so an exception of the body is raised again once [__exit__] is done. *)
Definition with_statement {A} (enter exit : M unit) (body : M A) : M A :=
  fun w =>
    match enter w with
    | (Ok _, w1) =>
        match body w1 with
        | (Ok a, w2) => (_ <- exit ;; ret a) w2
        | (Raise e, w2) => (_ <- exit ;; raise e) w2
        | (Stuck, w2) => (Stuck, w2)
        end
    | (Raise e, w1) => (Raise e, w1)
    | (Stuck, w1) => (Stuck, w1)
    end.

(** One method call on the container, with its arguments. *)
Inductive Call : Type :=
| Q_enqueue (item : PyVal) | Q_dequeue | Q_peek | Q_is_empty | Q_size
| Q_clear | Q_bulk_enqueue (items : PyVal) | Q_bulk_dequeue (count : Z)
| Q_snapshot | Q_restore (snapshot : PyVal) | Q_reverse
| Q_contains (item : PyVal) | Q_iter | Q_len | Q_enter | Q_exit
| S_push (item : PyVal) | S_pop | S_peek | S_is_empty | S_size
| S_clear | S_bulk_push (items : PyVal) | S_bulk_pop (count : Z)
| S_snapshot | S_restore (snapshot : PyVal) | S_reverse
| S_duplicate_top | S_swap_top
| S_contains (item : PyVal) | S_iter | S_len | S_enter | S_exit.

(** A call whose result the caller drops. *)
Definition ignore {A} (m : M A) : M unit := _ <- m ;; ret tt.

Definition call (c : Call) : M unit :=
  match c with
  | Q_enqueue x => Queue.enqueue x
  | Q_dequeue => ignore Queue.dequeue
  | Q_peek => ignore Queue.peek
  | Q_is_empty => ignore Queue.is_empty
  | Q_size => ignore Queue.size
  | Q_clear => Queue.clear
  | Q_bulk_enqueue v => Queue.bulk_enqueue v
  | Q_bulk_dequeue n => ignore (Queue.bulk_dequeue n)
  | Q_snapshot => ignore Queue.snapshot
  | Q_restore v => Queue.restore v
  | Q_reverse => Queue.reverse
  | Q_contains x => ignore (Queue.contains x)
  | Q_iter => ignore Queue.__iter__
  | Q_len => ignore Queue.__len__
  | Q_enter => Queue.__enter__
  | Q_exit => Queue.__exit__
  | S_push x => Stack.push x
  | S_pop => ignore Stack.pop
  | S_peek => ignore Stack.peek
  | S_is_empty => ignore Stack.is_empty
  | S_size => ignore Stack.size
  | S_clear => Stack.clear
  | S_bulk_push v => Stack.bulk_push v
  | S_bulk_pop n => ignore (Stack.bulk_pop n)
  | S_snapshot => ignore Stack.snapshot
  | S_restore v => Stack.restore v
  | S_reverse => Stack.reverse
  | S_duplicate_top => Stack.duplicate_top
  | S_swap_top => Stack.swap_top
  | S_contains x => ignore (Stack.contains x)
  | S_iter => ignore Stack.__iter__
  | S_len => ignore Stack.__len__
  | S_enter => Stack.__enter__
  | S_exit => Stack.__exit__
  end.


(** How one call may change the world: not at all, by replacing the deque
    that [_items] refers to, or by binding [_items] to a new deque at the
    end of the heap. *)
Definition evolves (w w' : World) : Prop :=
  w' = w
  \/ (exists d', w' = store (_items w) d' w)
  \/ (exists d', w' = mkWorld (heap w ++ [d']) (length (heap w)) false).

(** [m] returns or raises in [w], and changes [w] in one of the three
    ways. *)
Definition settles {A} (m : M A) (w : World) : Prop :=
  exists r w', m w = (r, w') /\ r <> Stuck /\ evolves w w'.

(** * Proofs *)

(** ** The scenarios of the specification *)

(** Scenario of the specification: enqueue 1, 2, 3; [dequeue()] returns 1;
    then [size()] is 2 and [peek()] is 2. *)
Example queue_scenario :
  fst ((Queue.enqueue (PyInt 1) ;; Queue.enqueue (PyInt 2) ;;
        Queue.enqueue (PyInt 3) ;;
        x <- Queue.dequeue ;; n <- Queue.size ;; p <- Queue.peek ;;
        ret (x, n, p)) (Queue.__init__ []))
  = Ok (PyInt 1, 2, PyInt 2).
Proof. reflexivity. Qed.

(** Scenario: push 1, 2; [swap_top()] leaves [2, 1], 1 on top. *)
Example stack_swap_scenario :
  contents (snd ((Stack.push (PyInt 1) ;; Stack.push (PyInt 2) ;;
                  Stack.swap_top) (Stack.__init__ [])))
  = [PyInt 2; PyInt 1].
Proof. reflexivity. Qed.

(** Scenario: a queue holding a, b, c iterates as c, b, a after
    [reverse()]. *)
Example queue_reverse_scenario :
  fst ((Queue.bulk_enqueue (PyList [PyStr "a"; PyStr "b"; PyStr "c"]) ;;
        Queue.reverse ;;
        it <- Queue.__iter__ ;; deque.list_of_iter it) (Queue.__init__ []))
  = Ok (PyList [PyStr "c"; PyStr "b"; PyStr "a"]).
Proof. reflexivity. Qed.

(** ** Worlds *)

Lemma quiescent_inv w :
  quiescent w = true ->
  _lock w = false /\ exists d, heap w !! _items w = Some d.
Proof.
  unfold quiescent. intros [Hl Hd]%andb_true_iff.
  apply negb_true_iff in Hl. apply bool_decide_eq_true in Hd as [d Hd].
  eauto.
Qed.

Lemma quiescent_intro w d :
  _lock w = false -> heap w !! _items w = Some d -> quiescent w = true.
Proof.
  intros Hl Hd. unfold quiescent. rewrite Hl. cbn.
  apply bool_decide_eq_true. rewrite Hd. eauto.
Qed.

Lemma contents_lookup w d :
  heap w !! _items w = Some d -> contents w = elems d.
Proof. unfold contents. intros ->. reflexivity. Qed.

Lemma unlock_lock w : _lock w = false -> set_lock false (set_lock true w) = w.
Proof. destruct w; cbn; intros ->; reflexivity. Qed.

Lemma unlock_store_lock w l d :
  _lock w = false -> set_lock false (store l d (set_lock true w)) = store l d w.
Proof. destruct w; cbn; intros ->; reflexivity. Qed.

Lemma store_lookup w l d d' :
  heap w !! l = Some d -> heap (store l d' w) !! l = Some d'.
Proof.
  intros H. cbn. apply list_lookup_insert_eq. eapply lookup_lt_Some, H.
Qed.

Lemma store_store w l d d' : store l d' (store l d w) = store l d' w.
Proof.
  unfold store, set_heap. cbn. rewrite list_insert_insert_eq. reflexivity.
Qed.

Lemma store_same w l d : heap w !! l = Some d -> store l d w = w.
Proof.
  intros H. destruct w as [h i k]. unfold store, set_heap. cbn in *.
  rewrite list_insert_id by exact H. reflexivity.
Qed.

Lemma store_quiescent w d d' :
  _lock w = false -> heap w !! _items w = Some d ->
  quiescent (store (_items w) d' w) = true.
Proof.
  intros Hl Hd. eapply quiescent_intro; [exact Hl | eapply store_lookup, Hd].
Qed.

Lemma store_contents w d d' :
  heap w !! _items w = Some d -> contents (store (_items w) d' w) = elems d'.
Proof. intros H. eapply contents_lookup, store_lookup, H. Qed.

Lemma init_lookup h : heap (Queue.__init__ h) !! length h = Some (mkDeque [] 0).
Proof. cbn. rewrite lookup_app_r, Nat.sub_diag by lia. reflexivity. Qed.

Lemma init_quiescent h : quiescent (Queue.__init__ h) = true.
Proof. eapply quiescent_intro; [reflexivity | apply init_lookup]. Qed.

Lemma init_contents h : contents (Queue.__init__ h) = [].
Proof. apply (contents_lookup _ _ (init_lookup h)). Qed.

(** ** The monad *)

Lemma bind_ok {A B} (m : M A) (k : A -> M B) w a w' :
  m w = (Ok a, w') -> bind m k w = k a w'.
Proof. unfold bind. intros ->. reflexivity. Qed.

Lemma bind_raise {A B} (m : M A) (k : A -> M B) w e w' :
  m w = (Raise e, w') -> bind m k w = (Raise e, w').
Proof. unfold bind. intros ->. reflexivity. Qed.

Lemma bind_self_items {B} (k : loc -> M B) w :
  bind self_items k w = k (_items w) w.
Proof. reflexivity. Qed.

Lemma with_lock_run {A} (body : M A) w r w' :
  _lock w = false -> body (set_lock true w) = (r, w') ->
  with_lock body w = (r, set_lock false w').
Proof. unfold with_lock. intros -> ->. reflexivity. Qed.

(** A body that leaves the world as it found it. *)
Lemma with_lock_pure {A} (body : M A) w r :
  _lock w = false -> body (set_lock true w) = (r, set_lock true w) ->
  with_lock body w = (r, w).
Proof.
  intros Hl Hb. rewrite (with_lock_run _ _ _ _ Hl Hb).
  rewrite unlock_lock by exact Hl. reflexivity.
Qed.

(** A body whose whole effect is one object replaced. *)
Lemma with_lock_store {A} (body : M A) w r l d :
  _lock w = false -> body (set_lock true w) = (r, store l d (set_lock true w)) ->
  with_lock body w = (r, store l d w).
Proof.
  intros Hl Hb. rewrite (with_lock_run _ _ _ _ Hl Hb).
  rewrite unlock_store_lock by exact Hl. reflexivity.
Qed.

(** ** [collections.deque], one operation at a time *)

Section deque_runs.
Variables (w : World) (l : loc) (d : Deque).
Hypothesis Hd : heap w !! l = Some d.

Lemma get_run : deque.get l w = (Ok d, w).
Proof. unfold deque.get. rewrite Hd. reflexivity. Qed.

Lemma append_run x :
  deque.append l x w = (Ok tt, store l (mkDeque (elems d ++ [x]) (S (state d))) w).
Proof. unfold deque.append. rewrite (bind_ok _ _ _ _ _ get_run). reflexivity. Qed.

Lemma len_run : deque.len l w = (Ok (Z.of_nat (length (elems d))), w).
Proof. unfold deque.len. rewrite (bind_ok _ _ _ _ _ get_run). reflexivity. Qed.

Lemma truth_run :
  deque.truth l w = (Ok (match elems d with [] => false | _ :: _ => true end), w).
Proof.
  unfold deque.truth. rewrite (bind_ok _ _ _ _ _ len_run).
  destruct (elems d); reflexivity.
Qed.

Lemma popleft_run x xs :
  elems d = x :: xs ->
  deque.popleft l w = (Ok x, store l (mkDeque xs (S (state d))) w).
Proof.
  intros E. unfold deque.popleft. rewrite (bind_ok _ _ _ _ _ get_run), E.
  reflexivity.
Qed.

Lemma pop_run xs x :
  elems d = xs ++ [x] ->
  deque.pop l w = (Ok x, store l (mkDeque xs (S (state d))) w).
Proof.
  intros E. unfold deque.pop. rewrite (bind_ok _ _ _ _ _ get_run), E.
  rewrite last_snoc, removelast_last. reflexivity.
Qed.

Lemma getitem_run i j x :
  deque.index i (length (elems d)) = Some j -> elems d !! j = Some x ->
  deque.getitem l i w = (Ok x, w).
Proof.
  intros Hi Hx. unfold deque.getitem.
  rewrite (bind_ok _ _ _ _ _ get_run), Hi, Hx. reflexivity.
Qed.

Lemma setitem_run i j v :
  deque.index i (length (elems d)) = Some j ->
  deque.setitem l i v w = (Ok tt, store l (mkDeque (<[j := v]> (elems d)) (state d)) w).
Proof.
  intros Hi. unfold deque.setitem.
  rewrite (bind_ok _ _ _ _ _ get_run), Hi. reflexivity.
Qed.

Lemma to_list_run : deque.to_list l w = (Ok (PyList (elems d)), w).
Proof. unfold deque.to_list. rewrite (bind_ok _ _ _ _ _ get_run). reflexivity. Qed.

End deque_runs.

(** [extend]: the items are appended in the order given. *)
Lemma forM_append_run xs : forall w l d,
  heap w !! l = Some d ->
  forM_ xs (deque.append l) w
  = (Ok tt, store l (mkDeque (elems d ++ xs) (length xs + state d)) w).
Proof.
  induction xs as [|x xs IH]; intros w l d Hd; cbn [forM_ length].
  - rewrite app_nil_r. cbn. destruct d as [es st]. cbn. rewrite store_same by exact Hd.
    reflexivity.
  - rewrite (bind_ok _ _ _ _ _ (append_run _ _ _ Hd x)).
    rewrite (IH _ _ _ (store_lookup _ _ _ _ Hd)). cbn [elems state].
    rewrite store_store, <- app_assoc, Nat.add_succ_r. reflexivity.
Qed.

(** [[popleft() for _ in range(n)]] takes the first [n] items, in order. *)
Lemma popleft_many n : forall w d,
  heap w !! _items w = Some d -> (n <= length (elems d))%nat ->
  replicateM n (l <- self_items ;; deque.popleft l) w
  = (Ok (take n (elems d)),
     store (_items w) (mkDeque (drop n (elems d)) (n + state d)) w).
Proof.
  induction n as [|n IH]; intros w d Hd Hn; cbn [replicateM].
  - cbn. destruct d as [es st]. cbn. rewrite store_same by exact Hd. reflexivity.
  - destruct (elems d) as [|x xs] eqn:E; [cbn in Hn; lia|].
    erewrite bind_ok
      by (rewrite bind_self_items; apply (popleft_run _ _ _ Hd _ _ E)).
    erewrite bind_ok
      by (apply IH; [eapply store_lookup, Hd | cbn in *; lia]).
    cbn [elems state take drop ret]. rewrite store_store, Nat.add_succ_r.
    reflexivity.
Qed.

(** [[pop() for _ in range(n)]] takes the last [n] items, last first. *)
Lemma pop_many n : forall w d r,
  heap w !! _items w = Some d -> elems d = rev r -> (n <= length r)%nat ->
  replicateM n (l <- self_items ;; deque.pop l) w
  = (Ok (take n r),
     store (_items w) (mkDeque (rev (drop n r)) (n + state d)) w).
Proof.
  induction n as [|n IH]; intros w d r Hd E Hn; cbn [replicateM].
  - change (drop 0 r) with r. rewrite <- E. destruct d as [es st]. cbn.
    rewrite store_same by exact Hd. reflexivity.
  - destruct r as [|x r]; [cbn in Hn; lia|]. cbn [rev] in E.
    erewrite bind_ok
      by (rewrite bind_self_items; apply (pop_run _ _ _ Hd _ _ E)).
    erewrite bind_ok
      by (apply IH with (r := r);
          [eapply store_lookup, Hd | reflexivity | cbn in *; lia]).
    cbn [elems state take drop ret]. rewrite store_store, Nat.add_succ_r.
    reflexivity.
Qed.

(** Python's negative indices. *)
Lemma index_neg k n :
  (1 <= k <= n)%nat -> deque.index (- Z.of_nat k) n = Some (n - k)%nat.
Proof.
  intros H. unfold deque.index.
  replace (- Z.of_nat k <? 0) with true by (symmetry; apply Z.ltb_lt; lia).
  replace ((0 <=? - Z.of_nat k + Z.of_nat n) && (- Z.of_nat k + Z.of_nat n <? Z.of_nat n))
    with true
    by (symmetry; apply andb_true_intro; split;
        [apply Z.leb_le | apply Z.ltb_lt]; lia).
  f_equal. lia.
Qed.

Lemma index_last n : deque.index (-1) (S n) = Some n.
Proof.
  change (-1) with (- Z.of_nat 1). rewrite index_neg by lia. f_equal. lia.
Qed.

Lemma index_before_last n : deque.index (-2) (S (S n)) = Some n.
Proof.
  change (-2) with (- Z.of_nat 2). rewrite index_neg by lia. f_equal. lia.
Qed.

Lemma isinstance_list v :
  isinstance v [list_t] = true <-> exists xs, v = PyList xs.
Proof.
  split; [|intros [xs ->]; reflexivity].
  destruct v; cbn; try discriminate. eauto.
Qed.

Lemma isinstance_list_tuple v :
  isinstance v [list_t; tuple_t] = true
  <-> exists xs, v = PyList xs \/ v = PyTuple xs.
Proof.
  split; [|intros [xs [-> | ->]]; reflexivity].
  destruct v; cbn; try discriminate; eauto.
Qed.

(** ** The methods, run in a world between two calls *)

Section method_runs.
Variables (w : World) (d : Deque).
Hypothesis Hl : _lock w = false.
Hypothesis Hd : heap w !! _items w = Some d.

(** The same deque, seen from inside [with self._lock]. *)
Let Hd' : heap (set_lock true w) !! _items (set_lock true w) = Some d := Hd.

Lemma enqueue_run x :
  Queue.enqueue x w
  = (Ok tt, store (_items w) (mkDeque (elems d ++ [x]) (S (state d))) w).
Proof.
  apply with_lock_store; [exact Hl|].
  rewrite bind_self_items. apply append_run, Hd'.
Qed.

Lemma dequeue_empty :
  elems d = [] ->
  Queue.dequeue w = (Raise (IndexError "dequeue from empty queue"), w).
Proof.
  intros E. apply with_lock_pure; [exact Hl|].
  rewrite bind_self_items, (bind_ok _ _ _ _ _ (truth_run _ _ _ Hd')), E.
  reflexivity.
Qed.

Lemma dequeue_cons x xs :
  elems d = x :: xs ->
  Queue.dequeue w = (Ok x, store (_items w) (mkDeque xs (S (state d))) w).
Proof.
  intros E. apply with_lock_store; [exact Hl|].
  rewrite bind_self_items, (bind_ok _ _ _ _ _ (truth_run _ _ _ Hd')), E.
  cbn [negb]. rewrite bind_self_items. apply (popleft_run _ _ _ Hd' _ _ E).
Qed.

Lemma queue_peek_run :
  Queue.peek w = (Ok (match elems d with [] => PyNone | x :: _ => x end), w).
Proof.
  apply with_lock_pure; [exact Hl|].
  rewrite bind_self_items, (bind_ok _ _ _ _ _ (truth_run _ _ _ Hd')).
  destruct (elems d) as [|x xs] eqn:E; [reflexivity|].
  rewrite bind_self_items.
  apply (getitem_run _ _ _ Hd' 0 0%nat x); rewrite E; reflexivity.
Qed.

Lemma size_run : Queue.size w = (Ok (Z.of_nat (length (elems d))), w).
Proof.
  apply with_lock_pure; [exact Hl|].
  rewrite bind_self_items. apply len_run, Hd'.
Qed.

Lemma bulk_dequeue_nonpos count :
  count <= 0 ->
  Queue.bulk_dequeue count w
  = (Raise (ValueError "bulk_dequeue expects a positive integer"), w).
Proof.
  intros H. apply with_lock_pure; [exact Hl|].
  apply Z.leb_le in H. rewrite H. reflexivity.
Qed.

Lemma bulk_dequeue_short count :
  count > Z.of_nat (length (elems d)) ->
  Queue.bulk_dequeue count w
  = (Raise (IndexError "Not enough elements in queue to dequeue"), w).
Proof.
  intros H. apply with_lock_pure; [exact Hl|].
  replace (count <=? 0) with false by (symmetry; apply Z.leb_gt; lia).
  rewrite bind_self_items, (bind_ok _ _ _ _ _ (len_run _ _ _ Hd')).
  replace (count >? _) with true by (symmetry; apply Z.gtb_gt; lia).
  reflexivity.
Qed.

Lemma bulk_dequeue_run count :
  0 < count <= Z.of_nat (length (elems d)) ->
  Queue.bulk_dequeue count w
  = (Ok (PyList (take (Z.to_nat count) (elems d))),
     store (_items w)
       (mkDeque (drop (Z.to_nat count) (elems d)) (Z.to_nat count + state d)) w).
Proof.
  intros H. apply with_lock_store; [exact Hl|].
  replace (count <=? 0) with false by (symmetry; apply Z.leb_gt; lia).
  rewrite bind_self_items, (bind_ok _ _ _ _ _ (len_run _ _ _ Hd')).
  replace (count >? _) with false
    by (symmetry; apply not_true_iff_false; rewrite Z.gtb_gt; lia).
  erewrite bind_ok by (apply (popleft_many _ _ _ Hd'); lia).
  reflexivity.
Qed.

Lemma snapshot_run : Queue.snapshot w = (Ok (PyList (elems d)), w).
Proof.
  apply with_lock_pure; [exact Hl|].
  rewrite bind_self_items. apply to_list_run, Hd'.
Qed.

Lemma restore_bad v :
  isinstance v [list_t] = false ->
  Queue.restore v w = (Raise (TypeError "restore expects a list of items"), w).
Proof.
  intros H. apply with_lock_pure; [exact Hl|]. rewrite H. reflexivity.
Qed.

(** [restore] on a list: a new deque holding the list's items becomes
    [_items]; the old deque stays in the heap as it was. *)
Lemma restore_list xs :
  Queue.restore (PyList xs) w
  = (Ok tt, {| heap := heap w ++ [mkDeque xs (length xs + 0)];
               _items := length (heap w);
               _lock := false |}).
Proof.
  unfold Queue.restore, with_lock. rewrite Hl. cbn [isinstance negb existsb
    type_of issubclass orb].
  unfold deque.of_iterable, deque.new, deque.extend. cbn [iter_items].
  unfold bind at 1 2. cbn [set_lock heap].
  erewrite bind_ok.
  2:{ apply forM_append_run with (d := mkDeque [] 0). cbn.
      rewrite lookup_app_r, Nat.sub_diag by lia. reflexivity. }
  cbn. f_equal. unfold set_lock, set_items, store, set_heap. cbn.
  f_equal. replace (length (heap w)) with (length (heap w) + 0)%nat at 1 by lia.
  rewrite insert_app_r. reflexivity.
Qed.

Lemma bulk_enqueue_bad v :
  isinstance v [list_t; tuple_t] = false ->
  Queue.bulk_enqueue v w
  = (Raise (TypeError "bulk_enqueue expects a list or tuple of items"), w).
Proof.
  intros H. apply with_lock_pure; [exact Hl|]. rewrite H. reflexivity.
Qed.

Lemma bulk_enqueue_run v xs :
  v = PyList xs \/ v = PyTuple xs ->
  Queue.bulk_enqueue v w
  = (Ok tt, store (_items w) (mkDeque (elems d ++ xs) (length xs + state d)) w).
Proof.
  intros Hv. apply with_lock_store; [exact Hl|].
  replace (isinstance v [list_t; tuple_t]) with true
    by (symmetry; apply isinstance_list_tuple; eauto).
  cbn [negb]. rewrite bind_self_items. unfold deque.extend.
  replace (iter_items v) with (Some xs) by (destruct Hv; subst; reflexivity).
  apply forM_append_run, Hd'.
Qed.

Lemma queue_iter_run :
  Queue.__iter__ w
  = (Ok (deque.mkIter (_items w) (state d) (length (elems d)) false), w).
Proof.
  apply with_lock_pure; [exact Hl|].
  rewrite bind_self_items. unfold deque.iter.
  rewrite (bind_ok _ _ _ _ _ (get_run _ _ _ Hd')). reflexivity.
Qed.

End method_runs.

Section stack_runs.
Variables (w : World) (d : Deque).
Hypothesis Hl : _lock w = false.
Hypothesis Hd : heap w !! _items w = Some d.

Let Hd' : heap (set_lock true w) !! _items (set_lock true w) = Some d := Hd.

Lemma push_run x :
  Stack.push x w
  = (Ok tt, store (_items w) (mkDeque (elems d ++ [x]) (S (state d))) w).
Proof. exact (enqueue_run w d Hl Hd x). Qed.

Lemma pop_empty :
  elems d = [] ->
  Stack.pop w = (Raise (IndexError "pop from empty stack"), w).
Proof.
  intros E. apply with_lock_pure; [exact Hl|].
  rewrite bind_self_items, (bind_ok _ _ _ _ _ (truth_run _ _ _ Hd')), E.
  reflexivity.
Qed.

Lemma pop_snoc xs x :
  elems d = xs ++ [x] ->
  Stack.pop w = (Ok x, store (_items w) (mkDeque xs (S (state d))) w).
Proof.
  intros E. apply with_lock_store; [exact Hl|].
  rewrite bind_self_items, (bind_ok _ _ _ _ _ (truth_run _ _ _ Hd')), E.
  destruct xs; cbn [app negb]; rewrite bind_self_items;
    apply (pop_run _ _ _ Hd' _ _ E).
Qed.

Lemma stack_peek_run :
  Stack.peek w
  = (Ok (match last (elems d) with None => PyNone | Some x => x end), w).
Proof.
  apply with_lock_pure; [exact Hl|].
  rewrite bind_self_items, (bind_ok _ _ _ _ _ (truth_run _ _ _ Hd')).
  destruct (elems d) as [|y ys] eqn:E; [reflexivity|].
  rewrite bind_self_items.
  apply (getitem_run _ _ _ Hd' (-1) (length ys)).
  - rewrite E. apply index_last.
  - rewrite E, last_lookup. cbn [length Nat.pred].
    destruct ((y :: ys) !! length ys) eqn:F; [reflexivity|].
    apply lookup_ge_None in F. cbn in F. lia.
Qed.

Lemma bulk_pop_nonpos count :
  count <= 0 ->
  Stack.bulk_pop count w
  = (Raise (ValueError "bulk_pop expects a positive integer"), w).
Proof.
  intros H. apply with_lock_pure; [exact Hl|].
  apply Z.leb_le in H. rewrite H. reflexivity.
Qed.

Lemma bulk_pop_short count :
  count > Z.of_nat (length (elems d)) ->
  Stack.bulk_pop count w
  = (Raise (IndexError "Not enough elements in stack to pop"), w).
Proof.
  intros H. apply with_lock_pure; [exact Hl|].
  replace (count <=? 0) with false by (symmetry; apply Z.leb_gt; lia).
  rewrite bind_self_items, (bind_ok _ _ _ _ _ (len_run _ _ _ Hd')).
  replace (count >? _) with true by (symmetry; apply Z.gtb_gt; lia).
  reflexivity.
Qed.

Lemma bulk_pop_run count :
  0 < count <= Z.of_nat (length (elems d)) ->
  Stack.bulk_pop count w
  = (Ok (PyList (take (Z.to_nat count) (rev (elems d)))),
     store (_items w)
       (mkDeque (rev (drop (Z.to_nat count) (rev (elems d))))
                (Z.to_nat count + state d)) w).
Proof.
  intros H. apply with_lock_store; [exact Hl|].
  replace (count <=? 0) with false by (symmetry; apply Z.leb_gt; lia).
  rewrite bind_self_items, (bind_ok _ _ _ _ _ (len_run _ _ _ Hd')).
  replace (count >? _) with false
    by (symmetry; apply not_true_iff_false; rewrite Z.gtb_gt; lia).
  erewrite bind_ok
    by (apply (pop_many _ _ _ (rev (elems d)) Hd');
        [symmetry; apply rev_involutive | rewrite length_rev; lia]).
  reflexivity.
Qed.

Lemma bulk_push_bad v :
  isinstance v [list_t; tuple_t] = false ->
  Stack.bulk_push v w
  = (Raise (TypeError "bulk_push expects a list or tuple of items"), w).
Proof.
  intros H. apply with_lock_pure; [exact Hl|]. rewrite H. reflexivity.
Qed.

Lemma bulk_push_run v xs :
  v = PyList xs \/ v = PyTuple xs ->
  Stack.bulk_push v w
  = (Ok tt, store (_items w) (mkDeque (elems d ++ xs) (length xs + state d)) w).
Proof.
  intros Hv. apply with_lock_store; [exact Hl|].
  replace (isinstance v [list_t; tuple_t]) with true
    by (symmetry; apply isinstance_list_tuple; eauto).
  cbn [negb]. rewrite bind_self_items. unfold deque.extend.
  replace (iter_items v) with (Some xs) by (destruct Hv; subst; reflexivity).
  apply forM_append_run, Hd'.
Qed.

Lemma duplicate_top_empty :
  elems d = [] ->
  Stack.duplicate_top w
  = (Raise (IndexError "Cannot duplicate top of empty stack"), w).
Proof.
  intros E. apply with_lock_pure; [exact Hl|].
  rewrite bind_self_items, (bind_ok _ _ _ _ _ (truth_run _ _ _ Hd')), E.
  reflexivity.
Qed.

Lemma duplicate_top_run xs y :
  elems d = xs ++ [y] ->
  Stack.duplicate_top w
  = (Ok tt, store (_items w) (mkDeque (xs ++ [y; y]) (S (state d))) w).
Proof.
  intros E. apply with_lock_store; [exact Hl|].
  rewrite bind_self_items, (bind_ok _ _ _ _ _ (truth_run _ _ _ Hd')).
  replace (match elems d with [] => false | _ :: _ => true end) with true
    by (rewrite E; destruct xs; reflexivity).
  cbn [negb]. rewrite !bind_self_items.
  erewrite bind_ok.
  2:{ apply (getitem_run _ _ _ Hd' (-1) (length xs) y).
      - rewrite E, length_app, Nat.add_1_r. apply index_last.
      - rewrite E. apply list_lookup_middle. reflexivity. }
  rewrite (append_run _ _ _ Hd'), E, <- app_assoc. reflexivity.
Qed.

Lemma swap_top_short :
  (length (elems d) < 2)%nat ->
  Stack.swap_top w = (Raise (IndexError "Not enough elements to swap top"), w).
Proof.
  intros H. apply with_lock_pure; [exact Hl|].
  rewrite bind_self_items, (bind_ok _ _ _ _ _ (len_run _ _ _ Hd')).
  replace (_ <? 2) with true by (symmetry; apply Z.ltb_lt; lia).
  reflexivity.
Qed.

Lemma swap_top_run xs a b :
  elems d = xs ++ [a; b] ->
  Stack.swap_top w
  = (Ok tt, store (_items w) (mkDeque (xs ++ [b; a]) (state d)) w).
Proof.
  intros E. apply with_lock_store; [exact Hl|].
  assert (Hn : length (elems d) = S (S (length xs)))
    by (rewrite E, length_app; cbn; lia).
  pose proof (index_before_last (length xs)) as I2.
  pose proof (index_last (S (length xs))) as I1.
  rewrite bind_self_items, (bind_ok _ _ _ _ _ (len_run _ _ _ Hd')).
  replace (_ <? 2) with false by (symmetry; apply Z.ltb_ge; lia).
  rewrite bind_self_items.
  erewrite bind_ok.
  2:{ apply (getitem_run _ _ _ Hd' (-2) (length xs) a).
      - rewrite Hn. exact I2.
      - rewrite E. apply list_lookup_middle. reflexivity. }
  rewrite bind_self_items.
  erewrite bind_ok.
  2:{ apply (getitem_run _ _ _ Hd' (-1) (S (length xs)) b).
      - rewrite Hn. exact I1.
      - rewrite E. change (xs ++ [a; b]) with (xs ++ [a] ++ [b]).
        rewrite app_assoc. apply list_lookup_middle.
        rewrite length_app. cbn. lia. }
  rewrite bind_self_items.
  erewrite bind_ok
    by (apply (setitem_run _ _ _ Hd' (-1) (S (length xs))); rewrite Hn; exact I1).
  rewrite bind_self_items.
  erewrite setitem_run.
  2:{ eapply store_lookup, Hd'. }
  2:{ cbn [elems]. rewrite length_insert, Hn. exact I2. }
  rewrite store_store. cbn [elems state]. rewrite E.
  do 3 f_equal.
  replace (S (length xs)) with (length xs + 1)%nat by lia.
  rewrite insert_app_r. cbn.
  replace (length xs) with (length xs + 0)%nat at 1 by lia.
  rewrite insert_app_r. reflexivity.
Qed.

Lemma stack_iter_run :
  Stack.__iter__ w
  = (Ok (deque.mkIter (_items w) (state d) (length (elems d)) true), w).
Proof.
  apply with_lock_pure; [exact Hl|].
  rewrite bind_self_items. unfold deque.reversed.
  rewrite (bind_ok _ _ _ _ _ (get_run _ _ _ Hd')). reflexivity.
Qed.

End stack_runs.

(** ** FIFO and LIFO *)

Lemma enqueue_all xs : forall w,
  quiescent w = true ->
  exists w', forM_ xs Queue.enqueue w = (Ok tt, w')
             /\ quiescent w' = true /\ contents w' = contents w ++ xs.
Proof.
  induction xs as [|x xs IH]; intros w Hq.
  - exists w. rewrite app_nil_r. auto.
  - destruct (quiescent_inv _ Hq) as [Hl [d Hd]].
    destruct (IH (store (_items w) (mkDeque (elems d ++ [x]) (S (state d))) w))
      as (w' & Hrun & Hq' & Hc); [eapply store_quiescent; eauto|].
    exists w'. cbn [forM_].
    rewrite (bind_ok _ _ _ _ _ (enqueue_run _ _ Hl Hd x)), Hrun.
    repeat split; [exact Hq'|].
    rewrite Hc, (store_contents _ _ _ Hd), (contents_lookup _ _ Hd).
    cbn [elems]. rewrite <- app_assoc. reflexivity.
Qed.

Lemma dequeue_all xs : forall w rest,
  quiescent w = true -> contents w = xs ++ rest ->
  exists w', replicateM (length xs) Queue.dequeue w = (Ok xs, w')
             /\ quiescent w' = true /\ contents w' = rest.
Proof.
  induction xs as [|x xs IH]; intros w rest Hq Hc.
  - exists w. auto.
  - destruct (quiescent_inv _ Hq) as [Hl [d Hd]].
    rewrite (contents_lookup _ _ Hd) in Hc. cbn [app] in Hc.
    destruct (IH (store (_items w) (mkDeque (xs ++ rest) (S (state d))) w) rest)
      as (w' & Hrun & Hq' & Hc');
      [eapply store_quiescent; eauto | rewrite (store_contents _ _ _ Hd); reflexivity |].
    exists w'. cbn [replicateM length].
    rewrite (bind_ok _ _ _ _ _ (dequeue_cons _ _ Hl Hd _ _ Hc)).
    rewrite (bind_ok _ _ _ _ _ Hrun). auto.
Qed.

Lemma pop_all xs : forall w rest,
  quiescent w = true -> contents w = rest ++ rev xs ->
  exists w', replicateM (length xs) Stack.pop w = (Ok xs, w')
             /\ quiescent w' = true /\ contents w' = rest.
Proof.
  induction xs as [|x xs IH]; intros w rest Hq Hc.
  - exists w. rewrite app_nil_r in Hc. auto.
  - destruct (quiescent_inv _ Hq) as [Hl [d Hd]].
    rewrite (contents_lookup _ _ Hd) in Hc. cbn [rev] in Hc.
    rewrite app_assoc in Hc.
    destruct (IH (store (_items w) (mkDeque (rest ++ rev xs) (S (state d))) w) rest)
      as (w' & Hrun & Hq' & Hc');
      [eapply store_quiescent; eauto | rewrite (store_contents _ _ _ Hd); reflexivity |].
    exists w'. cbn [replicateM length].
    rewrite (bind_ok _ _ _ _ _ (pop_snoc _ _ Hl Hd _ _ Hc)).
    rewrite (bind_ok _ _ _ _ _ Hrun). auto.
Qed.

(** C1 (FIFO law).  On a new queue, enqueueing the items [xs] one by one and
    then calling [dequeue] [length xs] times returns exactly [xs], in
    insertion order, and leaves the queue empty. *)
Theorem fifo_law (h : list Deque) (xs : list PyVal) :
  exists w',
    (forM_ xs Queue.enqueue ;; replicateM (length xs) Queue.dequeue)
      (Queue.__init__ h) = (Ok xs, w')
    /\ contents w' = [].
Proof.
  destruct (enqueue_all xs _ (init_quiescent h)) as (w1 & Hen & Hq1 & Hc1).
  rewrite init_contents in Hc1. cbn [app] in Hc1.
  destruct (dequeue_all xs w1 [] Hq1) as (w2 & Hde & _ & Hc2);
    [rewrite app_nil_r; exact Hc1|].
  exists w2. rewrite (bind_ok _ _ _ _ _ Hen). auto.
Qed.

(** C2 (LIFO law).  On a new stack, pushing the items [xs] one by one and
    then calling [pop] [length xs] times returns exactly the reverse of
    [xs], and leaves the stack empty. *)
Theorem lifo_law (h : list Deque) (xs : list PyVal) :
  exists w',
    (forM_ xs Stack.push ;; replicateM (length xs) Stack.pop)
      (Stack.__init__ h) = (Ok (rev xs), w')
    /\ contents w' = [].
Proof.
  destruct (enqueue_all xs _ (init_quiescent h)) as (w1 & Hen & Hq1 & Hc1).
  rewrite init_contents in Hc1. cbn [app] in Hc1.
  destruct (pop_all (rev xs) w1 [] Hq1) as (w2 & Hde & _ & Hc2);
    [rewrite rev_involutive; exact Hc1|].
  rewrite length_rev in Hde.
  exists w2. change Stack.push with Queue.enqueue.
  change (Stack.__init__ h) with (Queue.__init__ h).
  rewrite (bind_ok _ _ _ _ _ Hen). auto.
Qed.

(** ** Failures *)

Lemma fails_intro {A} (m : M A) w e k w' :
  m w = (Raise e, w') -> error_kind e = Some k -> fails m w k w'.
Proof. unfold fails, failure_kind. intros -> Hk. auto. Qed.

(** [raises H]: the call fails as the run lemma [H] says. *)
Ltac raises H := eapply fails_intro; [apply H | reflexivity].

(** C3.  In any world between two calls: [dequeue()] and [pop()] on an empty
    container fail with EmptyContainer; [bulk_dequeue(n)] and [bulk_pop(n)]
    fail with InvalidArgument when [n <= 0], and with EmptyContainer when
    [n] exceeds the size; each of these failures leaves the world, and so
    the contents, exactly as it was. *)
Theorem removal_failures (w : World) :
  quiescent w = true ->
  (contents w = [] ->
     fails Queue.dequeue w EmptyContainer w
     /\ fails Stack.pop w EmptyContainer w)
  /\ (forall n, n <= 0 ->
        fails (Queue.bulk_dequeue n) w InvalidArgument w
        /\ fails (Stack.bulk_pop n) w InvalidArgument w)
  /\ (forall n, n > Z.of_nat (length (contents w)) ->
        fails (Queue.bulk_dequeue n) w EmptyContainer w
        /\ fails (Stack.bulk_pop n) w EmptyContainer w).
Proof.
  intros Hq. destruct (quiescent_inv _ Hq) as [Hl [d Hd]].
  rewrite (contents_lookup _ _ Hd). split; [|split].
  - intros E. split.
    + raises (dequeue_empty _ _ Hl Hd E).
    + raises (pop_empty _ _ Hl Hd E).
  - intros n Hn. split.
    + raises (bulk_dequeue_nonpos _ Hl _ Hn).
    + raises (bulk_pop_nonpos _ Hl _ Hn).
  - intros n Hn. split.
    + raises (bulk_dequeue_short _ _ Hl Hd _ Hn).
    + raises (bulk_pop_short _ _ Hl Hd _ Hn).
Qed.

Lemma removal_failures_witness :
  fails Queue.dequeue (Queue.__init__ []) EmptyContainer (Queue.__init__ [])
  /\ fails (Stack.bulk_pop 3) (built_from [PyInt 1; PyInt 2]) EmptyContainer
       (built_from [PyInt 1; PyInt 2]).
Proof.
  split.
  - apply (removal_failures (Queue.__init__ [])); reflexivity.
  - apply (removal_failures (built_from [PyInt 1; PyInt 2])); [reflexivity|].
    cbn. lia.
Defined.

(** C4, as stated, fails: [bulk_dequeue(1)] on a new queue asks for more
    than the queue holds and fails with EmptyContainer, which is not
    InvalidArgument. *)
Lemma bulk_removal_short_is_not_invalid_argument :
  1 > Z.of_nat (length (contents (Queue.__init__ [])))
  /\ Queue.bulk_dequeue 1 (Queue.__init__ [])
     = (Raise (IndexError "Not enough elements in queue to dequeue"),
        Queue.__init__ [])
  /\ failure_kind (Queue.bulk_dequeue 1 (Queue.__init__ []))
     <> Some InvalidArgument.
Proof. repeat split; [discriminate]. Qed.

(** C4, amended.  A bulk removal whose count exceeds the size raises
    [IndexError], that is EmptyContainer and not InvalidArgument, and
    leaves the world unchanged. *)
Theorem bulk_removal_short (w : World) (n : Z) :
  quiescent w = true ->
  n > Z.of_nat (length (contents w)) ->
  Queue.bulk_dequeue n w
  = (Raise (IndexError "Not enough elements in queue to dequeue"), w)
  /\ Stack.bulk_pop n w
     = (Raise (IndexError "Not enough elements in stack to pop"), w)
  /\ failure_kind (Queue.bulk_dequeue n w) = Some EmptyContainer
  /\ failure_kind (Stack.bulk_pop n w) = Some EmptyContainer.
Proof.
  intros Hq Hn. destruct (quiescent_inv _ Hq) as [Hl [d Hd]].
  rewrite (contents_lookup _ _ Hd) in Hn.
  rewrite (bulk_dequeue_short _ _ Hl Hd _ Hn), (bulk_pop_short _ _ Hl Hd _ Hn).
  repeat split.
Qed.

Lemma bulk_removal_short_witness :
  Queue.bulk_dequeue 5 (built_from [PyInt 1; PyInt 2])
  = (Raise (IndexError "Not enough elements in queue to dequeue"),
     built_from [PyInt 1; PyInt 2]).
Proof.
  apply (bulk_removal_short (built_from [PyInt 1; PyInt 2]) 5);
    [reflexivity | cbn; lia].
Defined.

(** ** Snapshot and restore *)

Lemma restore_list_spec w xs :
  quiescent w = true ->
  exists w', Queue.restore (PyList xs) w = (Ok tt, w')
             /\ contents w' = xs /\ quiescent w' = true
             /\ heap w' !! _items w = heap w !! _items w.
Proof.
  intros Hq. destruct (quiescent_inv _ Hq) as [Hl [d Hd]].
  eexists. split; [apply (restore_list _ Hl)|].
  assert (Hnew : (heap w ++ [mkDeque xs (length xs + 0)]) !! length (heap w)
                 = Some (mkDeque xs (length xs + 0)))
    by (rewrite lookup_app_r, Nat.sub_diag by lia; reflexivity).
  repeat split.
  - exact (contents_lookup (mkWorld _ _ _) _ Hnew).
  - exact (quiescent_intro (mkWorld _ _ _) _ eq_refl Hnew).
  - cbn. apply lookup_app_l. eapply lookup_lt_Some, Hd.
Qed.

(** C5.  [snapshot()] returns the contents as a list, in order (head to tail
    for a queue, bottom to top for a stack), and changes nothing;
    [restore()] of that list, right away, succeeds and leaves the contents
    as they were.  The list is a copy: restoring it later, in any world the
    container has moved on to, brings the same contents back. *)
Theorem snapshot_restore (w : World) :
  quiescent w = true ->
  Queue.snapshot w = (Ok (PyList (contents w)), w)
  /\ Stack.snapshot w = (Ok (PyList (contents w)), w)
  /\ (exists w', (s <- Queue.snapshot ;; Queue.restore s) w = (Ok tt, w')
                 /\ contents w' = contents w /\ quiescent w' = true)
  /\ (exists w', (s <- Stack.snapshot ;; Stack.restore s) w = (Ok tt, w')
                 /\ contents w' = contents w /\ quiescent w' = true)
  /\ (forall later, quiescent later = true ->
        exists w', Queue.restore (PyList (contents w)) later = (Ok tt, w')
                   /\ contents w' = contents w).
Proof.
  intros Hq. destruct (quiescent_inv _ Hq) as [Hl [d Hd]].
  pose proof (snapshot_run _ _ Hl Hd) as Hs.
  rewrite <- (contents_lookup _ _ Hd) in Hs.
  destruct (restore_list_spec w (contents w) Hq) as (w' & Hr & Hc & Hq' & _).
  repeat split; try exact Hs.
  - exists w'. rewrite (bind_ok _ _ _ _ _ Hs). auto.
  - exists w'. change Stack.snapshot with Queue.snapshot.
    change Stack.restore with Queue.restore.
    rewrite (bind_ok _ _ _ _ _ Hs). auto.
  - intros later Hlater.
    destruct (restore_list_spec later (contents w) Hlater) as (w2 & ? & ? & _).
    eauto.
Qed.

Lemma snapshot_restore_witness :
  exists w',
    (s <- Queue.snapshot ;; Queue.restore s) (built_from [PyInt 1; PyInt 2])
    = (Ok tt, w')
    /\ contents w' = contents (built_from [PyInt 1; PyInt 2])
    /\ quiescent w' = true.
Proof.
  apply (snapshot_restore (built_from [PyInt 1; PyInt 2])). reflexivity.
Defined.

(** C6, as stated, fails: a tuple is an ordered sequence of items (and
    [bulk_enqueue] takes it), but [restore] rejects it with [TypeError],
    that is InvalidArgument. *)
Lemma restore_rejects_tuple :
  iter_items (PyTuple [PyInt 1; PyInt 2]) = Some [PyInt 1; PyInt 2]
  /\ fst (Queue.bulk_enqueue (PyTuple [PyInt 1; PyInt 2]) (Queue.__init__ []))
     = Ok tt
  /\ Queue.restore (PyTuple [PyInt 1; PyInt 2]) (Queue.__init__ [])
     = (Raise (TypeError "restore expects a list of items"), Queue.__init__ [])
  /\ failure_kind (Queue.restore (PyTuple [PyInt 1; PyInt 2]) (Queue.__init__ []))
     = Some InvalidArgument.
Proof. repeat split. Qed.

(** C6, amended.  [restore] fails with InvalidArgument exactly when its
    argument is not a [list] (a tuple is rejected), and on a list it
    replaces the contents by the list's items in order.  [bulk_enqueue] and
    [bulk_push] fail with InvalidArgument exactly when the argument is
    neither a [list] nor a [tuple], and otherwise append its items in
    order.  A failure leaves the world unchanged. *)
Theorem sequence_arguments (w : World) (v : PyVal) :
  quiescent w = true ->
  (if isinstance v [list_t]
   then exists xs w',
          iter_items v = Some xs
          /\ Queue.restore v w = (Ok tt, w')
          /\ Stack.restore v w = (Ok tt, w')
          /\ contents w' = xs /\ quiescent w' = true
   else fails (Queue.restore v) w InvalidArgument w
        /\ fails (Stack.restore v) w InvalidArgument w)
  /\ (if isinstance v [list_t; tuple_t]
      then exists xs w',
             iter_items v = Some xs
             /\ Queue.bulk_enqueue v w = (Ok tt, w')
             /\ Stack.bulk_push v w = (Ok tt, w')
             /\ contents w' = contents w ++ xs /\ quiescent w' = true
      else fails (Queue.bulk_enqueue v) w InvalidArgument w
           /\ fails (Stack.bulk_push v) w InvalidArgument w).
Proof.
  intros Hq. destruct (quiescent_inv _ Hq) as [Hl [d Hd]]. split.
  - destruct (isinstance v [list_t]) eqn:Hv.
    + apply isinstance_list in Hv as [xs ->].
      destruct (restore_list_spec w xs Hq) as (w' & Hr & Hc & Hq' & _).
      exists xs, w'. auto.
    + split; raises (restore_bad _ Hl _ Hv).
  - destruct (isinstance v [list_t; tuple_t]) eqn:Hv.
    + apply isinstance_list_tuple in Hv as [xs Hv].
      exists xs. eexists.
      split; [destruct Hv; subst; reflexivity|].
      split; [apply (bulk_enqueue_run _ _ Hl Hd _ _ Hv)|].
      split; [apply (bulk_push_run _ _ Hl Hd _ _ Hv)|].
      split; [|eapply store_quiescent; eauto].
      rewrite (store_contents _ _ _ Hd), (contents_lookup _ _ Hd). reflexivity.
    + split; [raises (bulk_enqueue_bad _ Hl _ Hv)
             | raises (bulk_push_bad _ Hl _ Hv)].
Qed.

Lemma sequence_arguments_witness :
  (fails (Queue.restore (PyTuple [PyInt 3])) (built_from [PyInt 1; PyInt 2])
     InvalidArgument (built_from [PyInt 1; PyInt 2])
   /\ fails (Stack.restore (PyTuple [PyInt 3])) (built_from [PyInt 1; PyInt 2])
        InvalidArgument (built_from [PyInt 1; PyInt 2]))
  /\ (exists xs w',
        iter_items (PyTuple [PyInt 3]) = Some xs
        /\ Queue.bulk_enqueue (PyTuple [PyInt 3]) (built_from [PyInt 1; PyInt 2])
           = (Ok tt, w')
        /\ Stack.bulk_push (PyTuple [PyInt 3]) (built_from [PyInt 1; PyInt 2])
           = (Ok tt, w')
        /\ contents w' = contents (built_from [PyInt 1; PyInt 2]) ++ xs
        /\ quiescent w' = true).
Proof.
  exact (sequence_arguments (built_from [PyInt 1; PyInt 2]) (PyTuple [PyInt 3])
           eq_refl).
Defined.

(** ** Iteration *)

Section next_runs.
Variables (w : World) (l : loc) (d : Deque).
Hypothesis Hd : heap w !! l = Some d.

Lemma next_stop r :
  deque.next (deque.mkIter l (state d) 0 r) w = (Ok None, w).
Proof.
  unfold deque.next.
  cbn [deque.it_deque deque.it_state deque.it_counter deque.it_reversed].
  rewrite (bind_ok _ _ _ _ _ (get_run _ _ _ Hd)), Nat.eqb_refl.
  destruct r; reflexivity.
Qed.

Lemma next_item (c : nat) (r : bool) (x : PyVal) :
  elems d !! (if r then c else (length (elems d) - S c)%nat) = Some x ->
  deque.next (deque.mkIter l (state d) (S c) r) w
  = (Ok (Some (x, deque.mkIter l (state d) c r)), w).
Proof.
  intros Hx. unfold deque.next.
  cbn [deque.it_deque deque.it_state deque.it_counter deque.it_reversed].
  rewrite (bind_ok _ _ _ _ _ (get_run _ _ _ Hd)), Nat.eqb_refl.
  destruct r; cbn [negb]; rewrite Hx; reflexivity.
Qed.

(** After a change of length: the forward iterator raises at once, the
    reversed one only while it has items left. *)
Lemma next_mutated st c :
  state d <> st ->
  deque.next (deque.mkIter l st c false) w
  = (Raise (RuntimeError "deque mutated during iteration"), w).
Proof.
  intros Hne. unfold deque.next.
  cbn [deque.it_deque deque.it_state deque.it_reversed].
  rewrite (bind_ok _ _ _ _ _ (get_run _ _ _ Hd)).
  apply Nat.eqb_neq in Hne. rewrite Hne. reflexivity.
Qed.

Lemma next_mutated_reversed st c :
  state d <> st ->
  deque.next (deque.mkIter l st c true) w
  = (match c with
     | O => Ok None
     | S _ => Raise (RuntimeError "deque mutated during iteration")
     end, w).
Proof.
  intros Hne. unfold deque.next.
  cbn [deque.it_deque deque.it_state deque.it_counter deque.it_reversed].
  rewrite (bind_ok _ _ _ _ _ (get_run _ _ _ Hd)).
  apply Nat.eqb_neq in Hne. rewrite Hne. destruct c; reflexivity.
Qed.

(** Consuming an iterator whose deque has not changed length since the
    iterator was created: the rest of the deque, as it is now. *)
Lemma drain_forward c :
  (c <= length (elems d))%nat ->
  deque.drain (S c) (deque.mkIter l (state d) c false) w
  = (Ok (drop (length (elems d) - c) (elems d)), w).
Proof.
  induction c as [|c IH]; intros Hc; cbn [deque.drain].
  - rewrite (bind_ok _ _ _ _ _ (next_stop false)).
    rewrite Nat.sub_0_r, drop_all. reflexivity.
  - destruct (lookup_lt_is_Some_2 (elems d) (length (elems d) - S c)) as [x Hx];
      [lia|].
    rewrite (bind_ok _ _ _ _ _ (next_item c false x Hx)).
    rewrite (bind_ok _ _ _ _ _ (IH ltac:(lia))).
    rewrite (drop_S _ _ _ Hx).
    replace (S (length (elems d) - S c)) with (length (elems d) - c)%nat by lia.
    reflexivity.
Qed.

Lemma drain_reversed c :
  (c <= length (elems d))%nat ->
  deque.drain (S c) (deque.mkIter l (state d) c true) w
  = (Ok (rev (take c (elems d))), w).
Proof.
  induction c as [|c IH]; intros Hc; cbn [deque.drain].
  - rewrite (bind_ok _ _ _ _ _ (next_stop true)). reflexivity.
  - destruct (lookup_lt_is_Some_2 (elems d) c) as [x Hx]; [lia|].
    rewrite (bind_ok _ _ _ _ _ (next_item c true x Hx)).
    rewrite (bind_ok _ _ _ _ _ (IH ltac:(lia))).
    rewrite (take_S_r _ _ _ Hx), rev_app_distr. reflexivity.
Qed.

End next_runs.

(** X1.  An iterator that is consumed before anything else touches the
    container yields the contents: head to tail for a queue, top to bottom
    for a stack. *)
Theorem iteration_undisturbed (w : World) :
  quiescent w = true ->
  iterate_after Queue.__iter__ (ret tt) w
  = (Ok (PyList (Queue_iteration_spec w)), w)
  /\ iterate_after Stack.__iter__ (ret tt) w
     = (Ok (PyList (Stack_iteration_spec w)), w).
Proof.
  intros Hq. destruct (quiescent_inv _ Hq) as [Hl [d Hd]].
  unfold iterate_after, Queue_iteration_spec, Stack_iteration_spec.
  rewrite (bind_ok _ _ _ _ _ (queue_iter_run _ _ Hl Hd)).
  rewrite (bind_ok _ _ _ _ _ (stack_iter_run _ _ Hl Hd)).
  rewrite (contents_lookup _ _ Hd).
  rewrite !(bind_ok _ _ _ _ _ (eq_refl : ret tt w = (Ok tt, w))).
  unfold deque.list_of_iter. cbn [deque.it_counter].
  rewrite (bind_ok _ _ _ _ _ (drain_forward _ _ _ Hd _ (Nat.le_refl _))).
  rewrite (bind_ok _ _ _ _ _ (drain_reversed _ _ _ Hd _ (Nat.le_refl _))).
  rewrite Nat.sub_diag, take_ge by lia. split; reflexivity.
Qed.

Lemma iteration_undisturbed_witness :
  iterate_after Stack.__iter__ (ret tt) (built_from [PyInt 1; PyInt 2])
  = (Ok (PyList [PyInt 2; PyInt 1]), built_from [PyInt 1; PyInt 2]).
Proof.
  apply (iteration_undisturbed (built_from [PyInt 1; PyInt 2])). reflexivity.
Defined.

(** C7, on the code.  The iterator that [__iter__] returns reads the live
    deque.  Queue holding 1, 2: after a later [enqueue(3)] the iterator
    raises [RuntimeError] instead of yielding 1, 2.  Stack holding 1, 2
    (2 on top): after a later [swap_top()] the iterator yields 1, 2, where
    the snapshot taken at its creation reads 2, 1. *)
Theorem iteration_sees_later_changes :
  Queue_iteration_spec (built_from [PyInt 1; PyInt 2]) = [PyInt 1; PyInt 2]
  /\ fst (iterate_after Queue.__iter__ (Queue.enqueue (PyInt 3))
            (built_from [PyInt 1; PyInt 2]))
     = Raise (RuntimeError "deque mutated during iteration")
  /\ Stack_iteration_spec (built_from [PyInt 1; PyInt 2]) = [PyInt 2; PyInt 1]
  /\ fst (iterate_after Stack.__iter__ Stack.swap_top
            (built_from [PyInt 1; PyInt 2]))
     = Ok (PyList [PyInt 1; PyInt 2]).
Proof. repeat split. Qed.

(** X5.  A [restore] between creation and consumption does not disturb the
    iterator: it rebinds [_items] to a new deque and leaves the old one,
    which the iterator reads, as it was. *)
Theorem iteration_after_restore (w : World) (xs : list PyVal) :
  quiescent w = true ->
  fst (iterate_after Queue.__iter__ (Queue.restore (PyList xs)) w)
  = Ok (PyList (Queue_iteration_spec w)).
Proof.
  intros Hq. destruct (quiescent_inv _ Hq) as [Hl [d Hd]].
  unfold iterate_after, Queue_iteration_spec.
  rewrite (bind_ok _ _ _ _ _ (queue_iter_run _ _ Hl Hd)).
  destruct (restore_list_spec w xs Hq) as (w' & Hr & _ & _ & Hold).
  rewrite (bind_ok _ _ _ _ _ Hr). rewrite Hd in Hold.
  unfold deque.list_of_iter. cbn [deque.it_counter].
  rewrite (bind_ok _ _ _ _ _ (drain_forward _ _ _ Hold _ (Nat.le_refl _))).
  rewrite Nat.sub_diag, (contents_lookup _ _ Hd). reflexivity.
Qed.

Lemma iteration_after_restore_witness :
  fst (iterate_after Queue.__iter__ (Queue.restore (PyList [PyInt 9]))
         (built_from [PyInt 1; PyInt 2]))
  = Ok (PyList [PyInt 1; PyInt 2]).
Proof.
  apply (iteration_after_restore (built_from [PyInt 1; PyInt 2]) [PyInt 9]).
  reflexivity.
Defined.

(** ** The two stack-only operations *)

(** C8.  With at least two items, [swap_top()] exchanges the two topmost
    and leaves the items below them, and the size, as they were; with fewer
    than two it fails with EmptyContainer and changes nothing. *)
Theorem swap_top_spec (w : World) :
  quiescent w = true ->
  (forall below a b, contents w = below ++ [a; b] ->
     exists w', Stack.swap_top w = (Ok tt, w')
                /\ contents w' = below ++ [b; a]
                /\ length (contents w') = length (contents w)
                /\ quiescent w' = true)
  /\ ((length (contents w) < 2)%nat ->
        fails Stack.swap_top w EmptyContainer w).
Proof.
  intros Hq. destruct (quiescent_inv _ Hq) as [Hl [d Hd]].
  rewrite (contents_lookup _ _ Hd). split.
  - intros below a b E. eexists.
    split; [apply (swap_top_run _ _ Hl Hd _ _ _ E)|].
    rewrite (store_contents _ _ _ Hd). cbn [elems].
    split; [reflexivity|]. split; [rewrite E, !length_app; reflexivity|].
    eapply store_quiescent; eauto.
  - intros H.
    raises (swap_top_short _ _ Hl Hd H).
Qed.

Lemma swap_top_spec_witness :
  exists w',
    Stack.swap_top (built_from [PyInt 0; PyInt 1; PyInt 2]) = (Ok tt, w')
    /\ contents w' = [PyInt 0] ++ [PyInt 2; PyInt 1]
    /\ length (contents w') = length (contents (built_from [PyInt 0; PyInt 1; PyInt 2]))
    /\ quiescent w' = true.
Proof.
  apply (swap_top_spec (built_from [PyInt 0; PyInt 1; PyInt 2]));
    reflexivity.
Defined.

(** C9.  On a non-empty stack [duplicate_top()] pushes the top item once
    more, so the size grows by one ([x, y] becomes [x, y, y]); on an empty
    stack it fails with EmptyContainer and changes nothing. *)
Theorem duplicate_top_spec (w : World) :
  quiescent w = true ->
  (forall below y, contents w = below ++ [y] ->
     exists w', Stack.duplicate_top w = (Ok tt, w')
                /\ contents w' = below ++ [y; y]
                /\ length (contents w') = S (length (contents w))
                /\ quiescent w' = true)
  /\ (contents w = [] -> fails Stack.duplicate_top w EmptyContainer w).
Proof.
  intros Hq. destruct (quiescent_inv _ Hq) as [Hl [d Hd]].
  rewrite (contents_lookup _ _ Hd). split.
  - intros below y E. eexists.
    split; [apply (duplicate_top_run _ _ Hl Hd _ _ E)|].
    rewrite (store_contents _ _ _ Hd). cbn [elems].
    split; [reflexivity|].
    split; [rewrite E, !length_app; cbn; lia|].
    eapply store_quiescent; eauto.
  - intros E.
    raises (duplicate_top_empty _ _ Hl Hd E).
Qed.

Lemma duplicate_top_spec_witness :
  exists w',
    Stack.duplicate_top (built_from [PyStr "x"; PyStr "y"]) = (Ok tt, w')
    /\ contents w' = [PyStr "x"] ++ [PyStr "y"; PyStr "y"]
    /\ length (contents w') = S (length (contents (built_from [PyStr "x"; PyStr "y"])))
    /\ quiescent w' = true.
Proof.
  apply (duplicate_top_spec (built_from [PyStr "x"; PyStr "y"]));
    reflexivity.
Defined.

(** ** [peek] *)

(** C10.  [peek()] never fails and changes nothing; on an empty container it
    returns [None]; on a container whose front (queue) or top (stack) item
    is [None] it returns [None] as well, the same result as on the empty
    container [e]. *)
Theorem peek_none_is_ambiguous (w e : World) :
  quiescent w = true -> quiescent e = true -> contents e = [] ->
  (exists v, Queue.peek w = (Ok v, w))
  /\ (exists v, Stack.peek w = (Ok v, w))
  /\ fst (Queue.peek e) = Ok PyNone
  /\ fst (Stack.peek e) = Ok PyNone
  /\ (forall rest, contents w = PyNone :: rest ->
        fst (Queue.peek w) = fst (Queue.peek e))
  /\ (forall rest, contents w = rest ++ [PyNone] ->
        fst (Stack.peek w) = fst (Stack.peek e)).
Proof.
  intros Hq He Hempty.
  destruct (quiescent_inv _ Hq) as [Hl [d Hd]].
  destruct (quiescent_inv _ He) as [Hle [de Hde]].
  rewrite (contents_lookup _ _ Hd).
  rewrite (contents_lookup _ _ Hde) in Hempty.
  rewrite (queue_peek_run _ _ Hl Hd), (stack_peek_run _ _ Hl Hd).
  rewrite (queue_peek_run _ _ Hle Hde), (stack_peek_run _ _ Hle Hde).
  rewrite Hempty. cbn [fst last].
  repeat split; eauto.
  - intros rest ->. reflexivity.
  - intros rest ->. rewrite last_snoc. reflexivity.
Qed.

Lemma peek_none_is_ambiguous_witness :
  fst (Queue.peek (built_from [PyNone; PyInt 7]))
  = fst (Queue.peek (Queue.__init__ [])).
Proof.
  apply (peek_none_is_ambiguous (built_from [PyNone; PyInt 7]) (Queue.__init__ [])
           eq_refl eq_refl eq_refl)
    with (rest := [PyInt 7]).
  reflexivity.
Defined.

(** ** Further properties of the methods *)

Section more_runs.
Variables (w : World) (d : Deque).
Hypothesis Hl : _lock w = false.
Hypothesis Hd : heap w !! _items w = Some d.

Let Hd' : heap (set_lock true w) !! _items (set_lock true w) = Some d := Hd.

Lemma clear_run :
  Queue.clear w
  = (Ok tt, match elems d with
            | [] => w
            | _ :: _ => store (_items w) (mkDeque [] (S (state d))) w
            end).
Proof.
  destruct (elems d) as [|x xs] eqn:E.
  - apply with_lock_pure; [exact Hl|].
    rewrite bind_self_items. unfold deque.clear.
    rewrite (bind_ok _ _ _ _ _ (get_run _ _ _ Hd')), E. reflexivity.
  - apply with_lock_store; [exact Hl|].
    rewrite bind_self_items. unfold deque.clear.
    rewrite (bind_ok _ _ _ _ _ (get_run _ _ _ Hd')), E. reflexivity.
Qed.

Lemma reverse_run :
  Queue.reverse w
  = (Ok tt, store (_items w) (mkDeque (rev (elems d)) (state d)) w).
Proof.
  apply with_lock_store; [exact Hl|].
  rewrite bind_self_items. unfold deque.reverse.
  rewrite (bind_ok _ _ _ _ _ (get_run _ _ _ Hd')). reflexivity.
Qed.

End more_runs.

(** X2.  After [clear()] the container is empty and [size()] is 0, whatever
    it held before. *)
Theorem clear_then_size (w : World) :
  quiescent w = true ->
  exists w', Queue.clear w = (Ok tt, w')
             /\ Stack.clear w = (Ok tt, w')
             /\ contents w' = []
             /\ Queue.size w' = (Ok 0, w')
             /\ Stack.size w' = (Ok 0, w').
Proof.
  intros Hq. destruct (quiescent_inv _ Hq) as [Hl [d Hd]].
  eexists. split; [apply (clear_run _ _ Hl Hd)|].
  split; [apply (clear_run _ _ Hl Hd)|].
  change Stack.size with Queue.size.
  destruct (elems d) as [|x xs] eqn:E.
  - rewrite (contents_lookup _ _ Hd), (size_run _ _ Hl Hd), E. auto.
  - rewrite (store_contents _ _ _ Hd).
    rewrite (size_run (store (_items w) (mkDeque [] (S (state d))) w) _ Hl
               (store_lookup _ _ _ _ Hd)).
    auto.
Qed.

Lemma clear_then_size_witness :
  exists w', Queue.clear (built_from [PyInt 1; PyInt 2]) = (Ok tt, w')
             /\ Stack.clear (built_from [PyInt 1; PyInt 2]) = (Ok tt, w')
             /\ contents w' = []
             /\ Queue.size w' = (Ok 0, w')
             /\ Stack.size w' = (Ok 0, w').
Proof. apply (clear_then_size (built_from [PyInt 1; PyInt 2])). reflexivity. Defined.

(** X3.  A bulk removal of [n] items, [0 < n <= size]: [bulk_dequeue]
    returns the first [n] items head first and keeps the rest; [bulk_pop]
    returns the last [n] items topmost first and keeps the rest. *)
Theorem bulk_removal (w : World) (n : Z) :
  quiescent w = true ->
  0 < n <= Z.of_nat (length (contents w)) ->
  (exists w', Queue.bulk_dequeue n w
              = (Ok (PyList (take (Z.to_nat n) (contents w))), w')
              /\ contents w' = drop (Z.to_nat n) (contents w)
              /\ quiescent w' = true)
  /\ (exists w', Stack.bulk_pop n w
                 = (Ok (PyList (take (Z.to_nat n) (rev (contents w)))), w')
                 /\ contents w' = rev (drop (Z.to_nat n) (rev (contents w)))
                 /\ quiescent w' = true).
Proof.
  intros Hq Hn. destruct (quiescent_inv _ Hq) as [Hl [d Hd]].
  rewrite (contents_lookup _ _ Hd) in *. split; eexists.
  - split; [apply (bulk_dequeue_run _ _ Hl Hd _ Hn)|].
    rewrite (store_contents _ _ _ Hd).
    split; [reflexivity | eapply store_quiescent; eauto].
  - split; [apply (bulk_pop_run _ _ Hl Hd _ Hn)|].
    rewrite (store_contents _ _ _ Hd).
    split; [reflexivity | eapply store_quiescent; eauto].
Qed.

Lemma bulk_removal_witness :
  exists w', Stack.bulk_pop 2 (built_from [PyInt 1; PyInt 2; PyInt 3])
             = (Ok (PyList [PyInt 3; PyInt 2]), w')
             /\ contents w' = [PyInt 1]
             /\ quiescent w' = true.
Proof.
  apply (bulk_removal (built_from [PyInt 1; PyInt 2; PyInt 3]) 2);
    [reflexivity | cbn; lia].
Defined.

(** X4.  [reverse()] reverses the contents in place. *)
Theorem reverse_spec (w : World) :
  quiescent w = true ->
  exists w', Queue.reverse w = (Ok tt, w')
             /\ Stack.reverse w = (Ok tt, w')
             /\ contents w' = rev (contents w)
             /\ quiescent w' = true.
Proof.
  intros Hq. destruct (quiescent_inv _ Hq) as [Hl [d Hd]].
  eexists. split; [apply (reverse_run _ _ Hl Hd)|].
  split; [apply (reverse_run _ _ Hl Hd)|].
  rewrite (store_contents _ _ _ Hd), (contents_lookup _ _ Hd).
  split; [reflexivity | eapply store_quiescent; eauto].
Qed.

Lemma reverse_spec_witness :
  exists w', Queue.reverse (built_from [PyInt 1; PyInt 2; PyInt 3]) = (Ok tt, w')
             /\ Stack.reverse (built_from [PyInt 1; PyInt 2; PyInt 3]) = (Ok tt, w')
             /\ contents w' = rev (contents (built_from [PyInt 1; PyInt 2; PyInt 3]))
             /\ quiescent w' = true.
Proof.
  apply (reverse_spec (built_from [PyInt 1; PyInt 2; PyInt 3])). reflexivity.
Defined.

(** X6.  An [enqueue] between creation and consumption always breaks the
    iterator: whatever the queue held, [list(it)] raises [RuntimeError]. *)
Theorem iteration_after_enqueue (w : World) (x : PyVal) :
  quiescent w = true ->
  fst (iterate_after Queue.__iter__ (Queue.enqueue x) w)
  = Raise (RuntimeError "deque mutated during iteration").
Proof.
  intros Hq. destruct (quiescent_inv _ Hq) as [Hl [d Hd]].
  unfold iterate_after.
  rewrite (bind_ok _ _ _ _ _ (queue_iter_run _ _ Hl Hd)).
  rewrite (bind_ok _ _ _ _ _ (enqueue_run _ _ Hl Hd x)).
  unfold deque.list_of_iter. cbn [deque.it_counter deque.drain].
  erewrite bind_raise; [reflexivity|].
  apply bind_raise.
  apply (next_mutated _ _ _ (store_lookup _ _ _ _ Hd)). cbn. lia.
Qed.

Lemma iteration_after_enqueue_witness :
  fst (iterate_after Queue.__iter__ (Queue.enqueue (PyInt 3))
         (built_from [PyInt 1; PyInt 2]))
  = Raise (RuntimeError "deque mutated during iteration").
Proof.
  apply (iteration_after_enqueue (built_from [PyInt 1; PyInt 2]) (PyInt 3)).
  reflexivity.
Defined.

(** ** Every call returns, and what a call may change *)

Lemma snoc_cases {A} (l : list A) : l = [] \/ exists xs x, l = xs ++ [x].
Proof.
  induction l as [|x xs _] using rev_ind; [left; reflexivity | right; eauto].
Qed.

Lemma two_last_cases {A} (l : list A) :
  (length l < 2)%nat \/ exists xs a b, l = xs ++ [a; b].
Proof.
  destruct (snoc_cases l) as [-> | (l' & b & ->)]; [left; cbn; lia|].
  destruct (snoc_cases l') as [-> | (xs & a & ->)]; [left; cbn; lia|].
  right. exists xs, a, b. rewrite <- app_assoc. reflexivity.
Qed.


Lemma evolves_frame w w' l d :
  evolves w w' -> heap w !! l = Some d -> l <> _items w ->
  heap w' !! l = Some d.
Proof.
  intros [-> | [[d' ->] | [d' ->]]] Hd Hne; [exact Hd | |]; cbn.
  - rewrite list_lookup_insert_ne by congruence. exact Hd.
  - apply lookup_app_l_Some, Hd.
Qed.

Lemma settles_ok {A} (m : M A) w a w' :
  m w = (Ok a, w') -> evolves w w' -> settles m w.
Proof. intros H E. exists (Ok a), w'. repeat split; [exact H | discriminate | exact E]. Qed.

Lemma settles_raise {A} (m : M A) w e w' :
  m w = (Raise e, w') -> evolves w w' -> settles m w.
Proof. intros H E. exists (Raise e), w'. repeat split; [exact H | discriminate | exact E]. Qed.

Lemma settles_ignore {A} (m : M A) w : settles m w -> settles (ignore m) w.
Proof.
  intros (r & w' & H & Hr & E). destruct r as [a | e |]; [| | congruence].
  - apply (settles_ok _ _ tt w'); [|exact E].
    unfold ignore. rewrite (bind_ok _ _ _ _ _ H). reflexivity.
  - apply (settles_raise _ _ e w'); [|exact E].
    unfold ignore. apply bind_raise, H.
Qed.

Lemma evolves_same w : evolves w w.
Proof. left. reflexivity. Qed.

Lemma evolves_store w d' : evolves w (store (_items w) d' w).
Proof. right. left. eauto. Qed.

Lemma evolves_rebind w d' :
  evolves w (mkWorld (heap w ++ [d']) (length (heap w)) false).
Proof. right. right. eauto. Qed.

Create HintDb evolves.
#[local] Hint Resolve evolves_same evolves_store evolves_rebind : evolves.

(** [returns H] and [throws H]: the call settles as the run lemma [H] says. *)
Ltac returns H := eapply settles_ok; [apply H | auto with evolves].
Ltac throws H := eapply settles_raise; [apply H | auto with evolves].

Section observer_runs.
Variables (w : World) (d : Deque).
Hypothesis Hl : _lock w = false.
Hypothesis Hd : heap w !! _items w = Some d.

Let Hd' : heap (set_lock true w) !! _items (set_lock true w) = Some d := Hd.

Lemma is_empty_run :
  Queue.is_empty w
  = (Ok (match elems d with [] => true | _ :: _ => false end), w).
Proof.
  apply with_lock_pure; [exact Hl|].
  rewrite bind_self_items, (bind_ok _ _ _ _ _ (truth_run _ _ _ Hd')).
  destruct (elems d); reflexivity.
Qed.

Lemma contains_run x :
  Queue.contains x w
  = (Ok (existsb (fun item => py_eq item x) (elems d)), w).
Proof.
  apply with_lock_pure; [exact Hl|].
  rewrite bind_self_items. unfold deque.contains.
  rewrite (bind_ok _ _ _ _ _ (get_run _ _ _ Hd')). reflexivity.
Qed.

End observer_runs.

(** Every method, called between two calls, returns or raises, and changes
    the world in one of the three ways of [evolves]. *)
Lemma call_settles c w : quiescent w = true -> settles (call c) w.
Proof.
  intros Hq. destruct (quiescent_inv _ Hq) as [Hl [d Hd]].
  destruct c; cbn [call]; try apply settles_ignore.
  - (* enqueue *) returns (enqueue_run _ _ Hl Hd).
  - (* dequeue *) destruct (elems d) as [|x xs] eqn:E.
    + throws (dequeue_empty _ _ Hl Hd E).
    + returns (dequeue_cons _ _ Hl Hd _ _ E).
  - returns (queue_peek_run _ _ Hl Hd).
  - returns (is_empty_run _ _ Hl Hd).
  - returns (size_run _ _ Hl Hd).
  - (* clear *) eapply settles_ok; [apply (clear_run _ _ Hl Hd)|].
    destruct (elems d); auto with evolves.
  - (* bulk_enqueue *) destruct (isinstance items [list_t; tuple_t]) eqn:Hv.
    + apply isinstance_list_tuple in Hv as [xs Hv].
      returns (bulk_enqueue_run _ _ Hl Hd _ _ Hv).
    + throws (bulk_enqueue_bad _ Hl _ Hv).
  - (* bulk_dequeue *) destruct (Z_le_gt_dec count 0) as [H0|H0].
    + throws (bulk_dequeue_nonpos _ Hl _ H0).
    + destruct (Z_gt_le_dec count (Z.of_nat (length (elems d)))) as [H1|H1].
      * throws (bulk_dequeue_short _ _ Hl Hd _ H1).
      * eapply settles_ok; [apply (bulk_dequeue_run _ _ Hl Hd count); lia | auto with evolves].
  - returns (snapshot_run _ _ Hl Hd).
  - (* restore *) destruct (isinstance snapshot [list_t]) eqn:Hv.
    + apply isinstance_list in Hv as [xs ->].
      returns (restore_list _ Hl).
    + throws (restore_bad _ Hl _ Hv).
  - returns (reverse_run _ _ Hl Hd).
  - returns (contains_run _ _ Hl Hd).
  - returns (queue_iter_run _ _ Hl Hd).
  - returns (size_run _ _ Hl Hd).
  - (* __enter__ *) eapply settles_ok; [reflexivity | auto with evolves].
  - (* __exit__ *) eapply settles_ok; [apply (clear_run _ _ Hl Hd)|].
    destruct (elems d); auto with evolves.
  - (* push *) returns (push_run _ _ Hl Hd).
  - (* pop *) destruct (snoc_cases (elems d)) as [E | (xs & x & E)].
    + throws (pop_empty _ _ Hl Hd E).
    + returns (pop_snoc _ _ Hl Hd _ _ E).
  - returns (stack_peek_run _ _ Hl Hd).
  - returns (is_empty_run _ _ Hl Hd).
  - returns (size_run _ _ Hl Hd).
  - eapply settles_ok; [apply (clear_run _ _ Hl Hd)|].
    destruct (elems d); auto with evolves.
  - (* bulk_push *) destruct (isinstance items [list_t; tuple_t]) eqn:Hv.
    + apply isinstance_list_tuple in Hv as [xs Hv].
      returns (bulk_push_run _ _ Hl Hd _ _ Hv).
    + throws (bulk_push_bad _ Hl _ Hv).
  - (* bulk_pop *) destruct (Z_le_gt_dec count 0) as [H0|H0].
    + throws (bulk_pop_nonpos _ Hl _ H0).
    + destruct (Z_gt_le_dec count (Z.of_nat (length (elems d)))) as [H1|H1].
      * throws (bulk_pop_short _ _ Hl Hd _ H1).
      * eapply settles_ok; [apply (bulk_pop_run _ _ Hl Hd count); lia | auto with evolves].
  - returns (snapshot_run _ _ Hl Hd).
  - destruct (isinstance snapshot [list_t]) eqn:Hv.
    + apply isinstance_list in Hv as [xs ->].
      returns (restore_list _ Hl).
    + throws (restore_bad _ Hl _ Hv).
  - returns (reverse_run _ _ Hl Hd).
  - (* duplicate_top *) destruct (snoc_cases (elems d)) as [E | (xs & x & E)].
    + throws (duplicate_top_empty _ _ Hl Hd E).
    + returns (duplicate_top_run _ _ Hl Hd _ _ E).
  - (* swap_top *) destruct (two_last_cases (elems d)) as [E | (xs & a & b & E)].
    + throws (swap_top_short _ _ Hl Hd E).
    + returns (swap_top_run _ _ Hl Hd _ _ _ E).
  - returns (contains_run _ _ Hl Hd).
  - returns (stack_iter_run _ _ Hl Hd).
  - returns (size_run _ _ Hl Hd).
  - eapply settles_ok; [reflexivity | auto with evolves].
  - eapply settles_ok; [apply (clear_run _ _ Hl Hd)|].
    destruct (elems d); auto with evolves.
Qed.




Lemma restore_settles_heap v w l d :
  quiescent w = true -> heap w !! l = Some d ->
  heap (snd (Queue.restore v w)) !! l = Some d.
Proof.
  intros Hq Hd. destruct (quiescent_inv _ Hq) as [Hl _].
  destruct (isinstance v [list_t]) eqn:Hv.
  - apply isinstance_list in Hv as [xs ->]. rewrite (restore_list _ Hl xs).
    cbn. apply lookup_app_l_Some, Hd.
  - rewrite (restore_bad _ Hl _ Hv). exact Hd.
Qed.

(** X8.  A call changes no object of the heap other than the container's own
    deque.  [restore] changes no object at all that was there before the
    call: on a list it binds [_items] to a deque that is new in the heap,
    and the deque that [_items] referred to before, which an iterator may
    still read, is as it was. *)
Theorem calls_leave_other_objects (c : Call) (w : World) (v : PyVal) :
  quiescent w = true ->
  (forall l d, heap w !! l = Some d -> l <> _items w ->
     heap (snd (call c w)) !! l = Some d)
  /\ (forall l d, heap w !! l = Some d ->
        heap (snd (Queue.restore v w)) !! l = Some d
        /\ heap (snd (Stack.restore v w)) !! l = Some d)
  /\ (isinstance v [list_t] = true ->
        heap w !! _items (snd (Queue.restore v w)) = None
        /\ heap w !! _items (snd (Stack.restore v w)) = None).
Proof.
  intros Hq. split; [|split].
  - intros l d Hd Hne.
    destruct (call_settles c w Hq) as (r & w' & H & _ & E).
    rewrite H. eapply evolves_frame; eauto.
  - intros l d Hd. change Stack.restore with Queue.restore.
    split; apply (restore_settles_heap v w l d Hq Hd).
  - intros Hv. change Stack.restore with Queue.restore.
    destruct (quiescent_inv _ Hq) as [Hl _].
    apply isinstance_list in Hv as [xs ->]. rewrite (restore_list _ Hl xs).
    cbn [snd _items]. split; apply lookup_ge_None; lia.
Qed.

Lemma calls_leave_other_objects_witness :
  heap (snd (Queue.restore (PyList [PyInt 9]) (built_from [PyInt 1; PyInt 2])))
    !! _items (built_from [PyInt 1; PyInt 2])
  = Some (mkDeque [PyInt 1; PyInt 2] 2)
  /\ heap (snd (call Q_dequeue (Queue.__init__ [mkDeque [PyInt 7] 1]))) !! 0%nat
     = Some (mkDeque [PyInt 7] 1).
Proof.
  split.
  - destruct (calls_leave_other_objects Q_dequeue (built_from [PyInt 1; PyInt 2])
                (PyList [PyInt 9]) eq_refl) as (_ & H & _).
    apply (H 0%nat). reflexivity.
  - destruct (calls_leave_other_objects Q_dequeue
                (Queue.__init__ [mkDeque [PyInt 7] 1]) PyNone eq_refl)
      as (H & _).
    apply (H 0%nat); [reflexivity | discriminate].
Defined.

(** ** The observers *)

(** X9.  [is_empty], [size], [__len__], [peek], [snapshot] and [contains]
    change nothing; [size()] and [len()] are the number of items;
    [is_empty()] is true exactly when that number is 0, and then
    [contains] is false for every item. *)
Theorem observers_agree (w : World) (x : PyVal) :
  quiescent w = true ->
  Queue.size w = (Ok (Z.of_nat (length (contents w))), w)
  /\ Queue.__len__ w = Queue.size w
  /\ Stack.size w = Queue.size w
  /\ Stack.__len__ w = Queue.size w
  /\ Queue.is_empty w = (Ok (Z.of_nat (length (contents w)) =? 0), w)
  /\ Stack.is_empty w = Queue.is_empty w
  /\ snd (Queue.peek w) = w /\ snd (Stack.peek w) = w
  /\ snd (Queue.snapshot w) = w
  /\ snd (Queue.contains x w) = w /\ snd (Stack.contains x w) = w
  /\ (contents w = [] -> fst (Queue.contains x w) = Ok false).
Proof.
  intros Hq. destruct (quiescent_inv _ Hq) as [Hl [d Hd]].
  rewrite (contents_lookup _ _ Hd).
  change Stack.contains with Queue.contains.
  rewrite (size_run _ _ Hl Hd), (is_empty_run _ _ Hl Hd),
    (queue_peek_run _ _ Hl Hd), (stack_peek_run _ _ Hl Hd),
    (snapshot_run _ _ Hl Hd), (contains_run _ _ Hl Hd).
  repeat split.
  - apply (size_run _ _ Hl Hd).
  - apply (size_run _ _ Hl Hd).
  - apply (size_run _ _ Hl Hd).
  - destruct (elems d); reflexivity.
  - apply (is_empty_run _ _ Hl Hd).
  - intros ->. reflexivity.
Qed.

Lemma observers_agree_witness :
  Queue.is_empty (built_from [PyInt 1; PyInt 2]) = (Ok false, built_from [PyInt 1; PyInt 2]).
Proof.
  apply (observers_agree (built_from [PyInt 1; PyInt 2]) PyNone). reflexivity.
Defined.

(** ** Bulk operations and single operations *)

Lemma enqueue_many xs : forall w d,
  _lock w = false -> heap w !! _items w = Some d ->
  forM_ xs Queue.enqueue w
  = (Ok tt, store (_items w) (mkDeque (elems d ++ xs) (length xs + state d)) w).
Proof.
  induction xs as [|x xs IH]; intros w d Hl Hd; cbn [forM_ length].
  - rewrite app_nil_r. destruct d as [es st]. cbn.
    rewrite store_same by exact Hd. reflexivity.
  - rewrite (bind_ok _ _ _ _ _ (enqueue_run _ _ Hl Hd x)).
    rewrite (IH (store (_items w) _ w) _ Hl (store_lookup _ _ _ _ Hd)).
    cbn [elems state].
    rewrite store_store, <- app_assoc, Nat.add_succ_r. reflexivity.
Qed.

Lemma dequeue_many n : forall w d,
  _lock w = false -> heap w !! _items w = Some d ->
  (n <= length (elems d))%nat ->
  replicateM n Queue.dequeue w
  = (Ok (take n (elems d)),
     store (_items w) (mkDeque (drop n (elems d)) (n + state d)) w).
Proof.
  induction n as [|n IH]; intros w d Hl Hd Hn; cbn [replicateM].
  - cbn. destruct d as [es st]. cbn. rewrite store_same by exact Hd.
    reflexivity.
  - destruct (elems d) as [|x xs] eqn:E; [cbn in Hn; lia|].
    rewrite (bind_ok _ _ _ _ _ (dequeue_cons _ _ Hl Hd _ _ E)).
    erewrite bind_ok
      by (apply (IH (store (_items w) _ w) _ Hl (store_lookup _ _ _ _ Hd));
          cbn in *; lia).
    cbn [elems state take drop ret]. rewrite store_store, Nat.add_succ_r.
    reflexivity.
Qed.

Lemma stack_pop_many n : forall w d r,
  _lock w = false -> heap w !! _items w = Some d ->
  elems d = rev r -> (n <= length r)%nat ->
  replicateM n Stack.pop w
  = (Ok (take n r),
     store (_items w) (mkDeque (rev (drop n r)) (n + state d)) w).
Proof.
  induction n as [|n IH]; intros w d r Hl Hd E Hn; cbn [replicateM].
  - change (drop 0 r) with r. rewrite <- E. destruct d as [es st]. cbn.
    rewrite store_same by exact Hd. reflexivity.
  - destruct r as [|x r]; [cbn in Hn; lia|]. cbn [rev] in E.
    rewrite (bind_ok _ _ _ _ _ (pop_snoc _ _ Hl Hd _ _ E)).
    erewrite bind_ok
      by (apply (IH (store (_items w) _ w) _ r Hl (store_lookup _ _ _ _ Hd));
          [reflexivity | cbn in *; lia]).
    cbn [elems state take drop ret]. rewrite store_store, Nat.add_succ_r.
    reflexivity.
Qed.

(** X10.  [bulk_enqueue(items)] on a list or a tuple does exactly what
    [enqueue] of each item in order does, and [bulk_push] what [push] of
    each item in order does: same result, same world. *)
Theorem bulk_insert_is_repeated_insert (w : World) (v : PyVal) (xs : list PyVal) :
  quiescent w = true ->
  v = PyList xs \/ v = PyTuple xs ->
  Queue.bulk_enqueue v w = forM_ xs Queue.enqueue w
  /\ Stack.bulk_push v w = forM_ xs Stack.push w.
Proof.
  intros Hq Hv. destruct (quiescent_inv _ Hq) as [Hl [d Hd]].
  change Stack.push with Queue.enqueue.
  rewrite (bulk_enqueue_run _ _ Hl Hd _ _ Hv), (bulk_push_run _ _ Hl Hd _ _ Hv).
  rewrite (enqueue_many _ _ _ Hl Hd). split; reflexivity.
Qed.

Lemma bulk_insert_is_repeated_insert_witness :
  Queue.bulk_enqueue (PyTuple [PyInt 3; PyInt 4]) (built_from [PyInt 1])
  = forM_ [PyInt 3; PyInt 4] Queue.enqueue (built_from [PyInt 1]).
Proof.
  apply (bulk_insert_is_repeated_insert (built_from [PyInt 1])
           (PyTuple [PyInt 3; PyInt 4]) [PyInt 3; PyInt 4]);
    [reflexivity | right; reflexivity].
Defined.

(** X11.  For [0 < n <= size], [bulk_dequeue(n)] does exactly what [n] calls
    of [dequeue] do, and [bulk_pop(n)] what [n] calls of [pop] do, with the
    items returned collected in a list in the order of the calls. *)
Theorem bulk_removal_is_repeated_removal (w : World) (n : Z) :
  quiescent w = true ->
  0 < n <= Z.of_nat (length (contents w)) ->
  Queue.bulk_dequeue n w
  = (r <- replicateM (Z.to_nat n) Queue.dequeue ;; ret (PyList r)) w
  /\ Stack.bulk_pop n w
     = (r <- replicateM (Z.to_nat n) Stack.pop ;; ret (PyList r)) w.
Proof.
  intros Hq Hn. destruct (quiescent_inv _ Hq) as [Hl [d Hd]].
  rewrite (contents_lookup _ _ Hd) in Hn.
  rewrite (bulk_dequeue_run _ _ Hl Hd _ Hn), (bulk_pop_run _ _ Hl Hd _ Hn).
  erewrite bind_ok by (apply (dequeue_many _ _ _ Hl Hd); lia).
  erewrite bind_ok
    by (apply (stack_pop_many _ _ _ (rev (elems d)) Hl Hd);
        [symmetry; apply rev_involutive | rewrite length_rev; lia]).
  split; reflexivity.
Qed.

Lemma bulk_removal_is_repeated_removal_witness :
  Stack.bulk_pop 2 (built_from [PyInt 1; PyInt 2; PyInt 3])
  = (r <- replicateM (Z.to_nat 2) Stack.pop ;; ret (PyList r))
      (built_from [PyInt 1; PyInt 2; PyInt 3]).
Proof.
  apply (bulk_removal_is_repeated_removal (built_from [PyInt 1; PyInt 2; PyInt 3]) 2);
    [reflexivity | cbn; lia].
Defined.

(** ** Single operations together *)

(** X12.  On a non-empty container [peek()] returns the very item that the
    next [dequeue()] (queue) or [pop()] (stack) returns and removes; the
    other items stay, in order. *)
Theorem peek_is_next_removed (w : World) :
  quiescent w = true -> contents w <> [] ->
  (exists x w', Queue.peek w = (Ok x, w)
                /\ Queue.dequeue w = (Ok x, w')
                /\ contents w = x :: contents w'
                /\ quiescent w' = true)
  /\ (exists y w', Stack.peek w = (Ok y, w)
                   /\ Stack.pop w = (Ok y, w')
                   /\ contents w = contents w' ++ [y]
                   /\ quiescent w' = true).
Proof.
  intros Hq Hne. destruct (quiescent_inv _ Hq) as [Hl [d Hd]].
  rewrite (contents_lookup _ _ Hd) in *. split.
  - destruct (elems d) as [|x xs] eqn:E; [congruence|].
    exists x. eexists. rewrite (queue_peek_run _ _ Hl Hd), E.
    split; [reflexivity|]. split; [apply (dequeue_cons _ _ Hl Hd _ _ E)|].
    rewrite (store_contents _ _ _ Hd).
    split; [reflexivity | eapply store_quiescent; eauto].
  - destruct (snoc_cases (elems d)) as [E | (xs & y & E)]; [congruence|].
    exists y. eexists. rewrite (stack_peek_run _ _ Hl Hd), E, last_snoc.
    split; [reflexivity|]. split; [apply (pop_snoc _ _ Hl Hd _ _ E)|].
    rewrite (store_contents _ _ _ Hd).
    split; [reflexivity | eapply store_quiescent; eauto].
Qed.

Lemma peek_is_next_removed_witness :
  exists x w', Queue.peek (built_from [PyInt 1; PyInt 2])
               = (Ok x, built_from [PyInt 1; PyInt 2])
               /\ Queue.dequeue (built_from [PyInt 1; PyInt 2]) = (Ok x, w')
               /\ contents (built_from [PyInt 1; PyInt 2]) = x :: contents w'
               /\ quiescent w' = true.
Proof.
  apply (peek_is_next_removed (built_from [PyInt 1; PyInt 2]));
    [reflexivity | discriminate].
Defined.

(** X13.  [push(x)] followed by [pop()] returns [x] and leaves the contents
    as they were.  [enqueue(x)] goes to the tail: the front of a non-empty
    queue is unchanged by it, and on an empty queue [x] becomes the front. *)
Theorem insert_then_observe (w : World) (x : PyVal) :
  quiescent w = true ->
  (exists w', (Stack.push x ;; Stack.pop) w = (Ok x, w')
              /\ contents w' = contents w /\ quiescent w' = true)
  /\ (exists w', (Stack.push x ;; Stack.peek) w = (Ok x, w'))
  /\ (exists w', (Queue.enqueue x ;; Queue.peek) w
                 = (Ok (match contents w with [] => x | y :: _ => y end), w')).
Proof.
  intros Hq. destruct (quiescent_inv _ Hq) as [Hl [d Hd]].
  rewrite (contents_lookup _ _ Hd).
  pose (w1 := store (_items w) (mkDeque (elems d ++ [x]) (S (state d))) w).
  assert (Hd1 : heap w1 !! _items w1 = Some (mkDeque (elems d ++ [x]) (S (state d))))
    by (apply (store_lookup _ _ _ _ Hd)).
  assert (Hl1 : _lock w1 = false) by exact Hl.
  split; [|split].
  - eexists. rewrite (bind_ok _ _ _ _ _ (push_run _ _ Hl Hd x)).
    split; [apply (pop_snoc w1 _ Hl1 Hd1 (elems d) x); reflexivity|].
    unfold w1. cbn [_items store set_heap state]. fold (store (_items w)).
    rewrite store_store, (store_contents _ _ _ Hd).
    split; [reflexivity | eapply store_quiescent; eauto].
  - eexists. rewrite (bind_ok _ _ _ _ _ (push_run _ _ Hl Hd x)).
    fold w1. rewrite (stack_peek_run w1 _ Hl1 Hd1). cbn [elems].
    rewrite last_snoc. reflexivity.
  - eexists. rewrite (bind_ok _ _ _ _ _ (enqueue_run _ _ Hl Hd x)).
    fold w1. rewrite (queue_peek_run w1 _ Hl1 Hd1). cbn [elems].
    destruct (elems d); reflexivity.
Qed.

Lemma insert_then_observe_witness :
  exists w', (Stack.push (PyInt 9) ;; Stack.pop) (built_from [PyInt 1]) = (Ok (PyInt 9), w')
             /\ contents w' = contents (built_from [PyInt 1])
             /\ quiescent w' = true.
Proof.
  apply (insert_then_observe (built_from [PyInt 1]) (PyInt 9)). reflexivity.
Defined.

(** X14.  [restore(xs)] of a list followed by [snapshot()] returns that
    list, whatever the container held before, and [size()] is then the
    length of the list. *)
Theorem restore_then_snapshot (w : World) (xs : list PyVal) :
  quiescent w = true ->
  exists w', (Queue.restore (PyList xs) ;; Queue.snapshot) w = (Ok (PyList xs), w')
             /\ (Stack.restore (PyList xs) ;; Stack.snapshot) w = (Ok (PyList xs), w')
             /\ Queue.size w' = (Ok (Z.of_nat (length xs)), w').
Proof.
  intros Hq. destruct (quiescent_inv _ Hq) as [Hl [d Hd]].
  change Stack.restore with Queue.restore.
  change Stack.snapshot with Queue.snapshot.
  assert (Hnew : (heap w ++ [mkDeque xs (length xs + 0)]) !! length (heap w)
                 = Some (mkDeque xs (length xs + 0)))
    by (rewrite lookup_app_r, Nat.sub_diag by lia; reflexivity).
  eexists. rewrite (bind_ok _ _ _ _ _ (restore_list _ Hl xs)).
  rewrite (snapshot_run (mkWorld _ _ _) _ eq_refl Hnew).
  rewrite (size_run (mkWorld _ _ _) _ eq_refl Hnew). auto.
Qed.

Lemma restore_then_snapshot_witness :
  exists w', (Queue.restore (PyList [PyInt 5]) ;; Queue.snapshot) (built_from [PyInt 1])
             = (Ok (PyList [PyInt 5]), w')
             /\ (Stack.restore (PyList [PyInt 5]) ;; Stack.snapshot) (built_from [PyInt 1])
                = (Ok (PyList [PyInt 5]), w')
             /\ Queue.size w' = (Ok (Z.of_nat (length [PyInt 5])), w').
Proof.
  apply (restore_then_snapshot (built_from [PyInt 1]) [PyInt 5]). reflexivity.
Defined.

(** ** The [with] statement *)

(** X15.  [with q: body] empties the container on the way out, whether the
    body returned or raised; the body's value is returned and the body's
    exception is raised again.  (The body is any code that ends between two
    calls of the container.) *)
Theorem with_statement_clears {A} (body : M A) (w w1 : World) (r : Result A) :
  body w = (r, w1) -> quiescent w1 = true -> r <> Stuck ->
  (exists w', with_statement Queue.__enter__ Queue.__exit__ body w = (r, w')
              /\ contents w' = [] /\ quiescent w' = true)
  /\ (exists w', with_statement Stack.__enter__ Stack.__exit__ body w = (r, w')
                 /\ contents w' = [] /\ quiescent w' = true).
Proof.
  intros Hb Hq1 Hr. destruct (quiescent_inv _ Hq1) as [Hl [d Hd]].
  change Stack.__enter__ with Queue.__enter__.
  change Stack.__exit__ with Queue.__exit__.
  assert (Hc : exists w', Queue.__exit__ w1 = (Ok tt, w')
                          /\ contents w' = [] /\ quiescent w' = true).
  { eexists. split; [apply (clear_run _ _ Hl Hd)|].
    destruct (elems d) as [|x xs] eqn:E.
    - rewrite (contents_lookup _ _ Hd), E. auto.
    - rewrite (store_contents _ _ _ Hd).
      split; [reflexivity | eapply store_quiescent; eauto]. }
  destruct Hc as (w' & Hex & Hc & Hq').
  assert (H : with_statement Queue.__enter__ Queue.__exit__ body w = (r, w')).
  { unfold with_statement. change (Queue.__enter__ w) with (Ok tt, w).
    cbv iota beta. rewrite Hb.
    destruct r as [a | e |]; [| | congruence].
    - rewrite (bind_ok _ _ _ _ _ Hex). reflexivity.
    - rewrite (bind_ok _ _ _ _ _ Hex). reflexivity. }
  split; exists w'; auto.
Qed.

Lemma with_statement_clears_witness :
  exists w',
    with_statement Queue.__enter__ Queue.__exit__
      (Queue.enqueue (PyInt 2) ;; Queue.bulk_dequeue 5) (built_from [PyInt 1])
    = (Raise (IndexError "Not enough elements in queue to dequeue"), w')
    /\ contents w' = [] /\ quiescent w' = true.
Proof.
  apply (with_statement_clears
           (Queue.enqueue (PyInt 2) ;; Queue.bulk_dequeue 5)
           (built_from [PyInt 1]) (built_from [PyInt 1; PyInt 2])
           (Raise (IndexError "Not enough elements in queue to dequeue")));
    [reflexivity | reflexivity | discriminate].
Defined.

(** ** Membership *)

Fixpoint py_eq_refl (v : PyVal) : py_eq v v = true.
Proof.
  destruct v as [| b | z | s | xs | xs]; cbn.
  - reflexivity.
  - apply Bool.eqb_reflx.
  - apply Z.eqb_refl.
  - apply String.eqb_refl.
  - induction xs as [|x xs IH]; [reflexivity|].
    rewrite (py_eq_refl x). exact IH.
  - induction xs as [|x xs IH]; [reflexivity|].
    rewrite (py_eq_refl x). exact IH.
Qed.




(** X16.  After [enqueue(x)] or [push(x)], [contains(x)] is true, and every
    item that [contains] found before is still found. *)
Theorem contains_after_insert (w : World) (x y : PyVal) :
  quiescent w = true ->
  (exists w', (Queue.enqueue x ;; Queue.contains x) w = (Ok true, w'))
  /\ (exists w', (Stack.push x ;; Stack.contains x) w = (Ok true, w'))
  /\ (fst (Queue.contains y w) = Ok true ->
        exists w', (Queue.enqueue x ;; Queue.contains y) w = (Ok true, w')).
Proof.
  intros Hq. destruct (quiescent_inv _ Hq) as [Hl [d Hd]].
  change Stack.push with Queue.enqueue.
  change Stack.contains with Queue.contains.
  pose (w1 := store (_items w) (mkDeque (elems d ++ [x]) (S (state d))) w).
  assert (Hd1 : heap w1 !! _items w1 = Some (mkDeque (elems d ++ [x]) (S (state d))))
    by (apply (store_lookup _ _ _ _ Hd)).
  assert (Hl1 : _lock w1 = false) by exact Hl.
  assert (Hx : (Queue.enqueue x ;; Queue.contains x) w = (Ok true, w1)).
  { rewrite (bind_ok _ _ _ _ _ (enqueue_run _ _ Hl Hd x)). fold w1.
    rewrite (contains_run w1 _ Hl1 Hd1). cbn [elems].
    rewrite existsb_app. cbn. rewrite py_eq_refl, orb_true_r. reflexivity. }
  split; [eauto|]. split; [eauto|].
  rewrite (contains_run _ _ Hl Hd). cbn [fst]. intros [= Hy].
  exists w1. rewrite (bind_ok _ _ _ _ _ (enqueue_run _ _ Hl Hd x)). fold w1.
  rewrite (contains_run w1 _ Hl1 Hd1). cbn [elems].
  rewrite existsb_app, Hy. reflexivity.
Qed.

Lemma contains_after_insert_witness :
  exists w', (Queue.enqueue (PyStr "a") ;; Queue.contains (PyStr "a"))
               (built_from [PyInt 1]) = (Ok true, w').
Proof.
  apply (contains_after_insert (built_from [PyInt 1]) (PyStr "a") PyNone).
  reflexivity.
Defined.



(** ** [reverse] with the other operations *)

(** X18.  [reverse()] twice gives the contents back; after one [reverse()]
    the queue's [dequeue()] returns what was the tail item and the stack's
    [pop()] what was the bottom item. *)
Theorem reverse_then_remove (w : World) :
  quiescent w = true ->
  (exists w', (Queue.reverse ;; Queue.reverse) w = (Ok tt, w')
              /\ contents w' = contents w)
  /\ (forall xs y, contents w = xs ++ [y] ->
        exists w', (Queue.reverse ;; Queue.dequeue) w = (Ok y, w')
                   /\ contents w' = rev xs)
  /\ (forall x xs, contents w = x :: xs ->
        exists w', (Stack.reverse ;; Stack.pop) w = (Ok x, w')
                   /\ contents w' = rev xs).
Proof.
  intros Hq. destruct (quiescent_inv _ Hq) as [Hl [d Hd]].
  change Stack.reverse with Queue.reverse.
  rewrite (contents_lookup _ _ Hd).
  pose (w1 := store (_items w) (mkDeque (rev (elems d)) (state d)) w).
  assert (Hd1 : heap w1 !! _items w1 = Some (mkDeque (rev (elems d)) (state d)))
    by (apply (store_lookup _ _ _ _ Hd)).
  assert (Hl1 : _lock w1 = false) by exact Hl.
  split; [|split].
  - eexists. rewrite (bind_ok _ _ _ _ _ (reverse_run _ _ Hl Hd)). fold w1.
    split; [apply (reverse_run w1 _ Hl1 Hd1)|].
    erewrite contents_lookup by (apply (store_lookup _ _ _ _ Hd1)).
    cbn [elems]. apply rev_involutive.
  - intros xs y E. eexists.
    rewrite (bind_ok _ _ _ _ _ (reverse_run _ _ Hl Hd)). fold w1.
    split.
    + apply (dequeue_cons w1 _ Hl1 Hd1 y (rev xs)). cbn [elems].
      rewrite E, rev_app_distr. reflexivity.
    + erewrite contents_lookup by (apply (store_lookup _ _ _ _ Hd1)).
      reflexivity.
  - intros x xs E. eexists.
    rewrite (bind_ok _ _ _ _ _ (reverse_run _ _ Hl Hd)). fold w1.
    split.
    + apply (pop_snoc w1 _ Hl1 Hd1 (rev xs) x). cbn [elems].
      rewrite E. reflexivity.
    + erewrite contents_lookup by (apply (store_lookup _ _ _ _ Hd1)).
      reflexivity.
Qed.

Lemma reverse_then_remove_witness :
  exists w', (Queue.reverse ;; Queue.dequeue) (built_from [PyInt 1; PyInt 2; PyInt 3])
             = (Ok (PyInt 3), w')
             /\ contents w' = rev [PyInt 1; PyInt 2].
Proof.
  apply (reverse_then_remove (built_from [PyInt 1; PyInt 2; PyInt 3]));
    reflexivity.
Defined.

(** ** Iteration order and removal order *)

Lemma list_of_iter_run w l d :
  heap w !! l = Some d ->
  deque.list_of_iter (deque.mkIter l (state d) (length (elems d)) false) w
  = (Ok (PyList (elems d)), w)
  /\ deque.list_of_iter (deque.mkIter l (state d) (length (elems d)) true) w
     = (Ok (PyList (rev (elems d))), w).
Proof.
  intros Hd. unfold deque.list_of_iter. cbn [deque.it_counter].
  rewrite (bind_ok _ _ _ _ _ (drain_forward _ _ _ Hd _ (Nat.le_refl _))).
  rewrite (bind_ok _ _ _ _ _ (drain_reversed _ _ _ Hd _ (Nat.le_refl _))).
  rewrite Nat.sub_diag, take_ge by lia. split; reflexivity.
Qed.

(** X19.  Iterating a queue right away yields the list that [snapshot()]
    returns; on a non-empty container, iterating yields the items in the
    order in which removing them all would return them:
    [bulk_dequeue(size)] for a queue, [bulk_pop(size)] for a stack. *)
Theorem iteration_is_removal_order (w : World) :
  quiescent w = true ->
  fst (iterate_after Queue.__iter__ (ret tt) w) = fst (Queue.snapshot w)
  /\ (contents w <> [] ->
        fst (iterate_after Queue.__iter__ (ret tt) w)
        = fst (Queue.bulk_dequeue (Z.of_nat (length (contents w))) w)
        /\ fst (iterate_after Stack.__iter__ (ret tt) w)
           = fst (Stack.bulk_pop (Z.of_nat (length (contents w))) w)).
Proof.
  intros Hq. destruct (quiescent_inv _ Hq) as [Hl [d Hd]].
  rewrite (contents_lookup _ _ Hd). unfold iterate_after.
  rewrite (bind_ok _ _ _ _ _ (queue_iter_run _ _ Hl Hd)).
  rewrite (bind_ok _ _ _ _ _ (stack_iter_run _ _ Hl Hd)).
  rewrite !(bind_ok _ _ _ _ _ (eq_refl : ret tt w = (Ok tt, w))).
  destruct (list_of_iter_run _ _ _ Hd) as [-> ->].
  rewrite (snapshot_run _ _ Hl Hd). split; [reflexivity|].
  intros Hne.
  assert (Hn : 0 < Z.of_nat (length (elems d)) <= Z.of_nat (length (elems d)))
    by (destruct (elems d); [congruence | cbn; lia]).
  rewrite (bulk_dequeue_run _ _ Hl Hd _ Hn), (bulk_pop_run _ _ Hl Hd _ Hn).
  rewrite Nat2Z.id. rewrite !take_ge by (rewrite ?length_rev; lia).
  split; reflexivity.
Qed.

Lemma iteration_is_removal_order_witness :
  fst (iterate_after Stack.__iter__ (ret tt) (built_from [PyInt 1; PyInt 2]))
  = fst (Stack.bulk_pop (Z.of_nat (length (contents (built_from [PyInt 1; PyInt 2]))))
           (built_from [PyInt 1; PyInt 2])).
Proof.
  apply (iteration_is_removal_order (built_from [PyInt 1; PyInt 2]));
    [reflexivity | discriminate].
Defined.

(** ** The size *)

(** X20.  [size()] follows the calls: one more after [enqueue] or [push],
    one less after a [dequeue] or [pop] that returned, and the number of
    items of the argument more after [bulk_enqueue] or [bulk_push]. *)
Theorem size_follows_calls (w : World) (x : PyVal) (xs : list PyVal) :
  quiescent w = true ->
  let n := Z.of_nat (length (contents w)) in
  fst ((Queue.enqueue x ;; Queue.size) w) = Ok (n + 1)
  /\ fst ((Stack.push x ;; Stack.size) w) = Ok (n + 1)
  /\ fst ((Queue.bulk_enqueue (PyList xs) ;; Queue.size) w)
     = Ok (n + Z.of_nat (length xs))
  /\ fst ((Stack.bulk_push (PyTuple xs) ;; Stack.size) w)
     = Ok (n + Z.of_nat (length xs))
  /\ (contents w <> [] ->
        fst ((Queue.dequeue ;; Queue.size) w) = Ok (n - 1)
        /\ fst ((Stack.pop ;; Stack.size) w) = Ok (n - 1)).
Proof.
  intros Hq n. subst n. destruct (quiescent_inv _ Hq) as [Hl [d Hd]].
  rewrite (contents_lookup _ _ Hd).
  change Stack.push with Queue.enqueue. change Stack.size with Queue.size.
  assert (Hsize : forall d', fst (Queue.size (store (_items w) d' w))
                             = Ok (Z.of_nat (length (elems d')))).
  { intros d'.
    rewrite (size_run (store (_items w) d' w) d' Hl (store_lookup _ _ _ _ Hd)).
    reflexivity. }
  rewrite (bind_ok _ _ _ _ _ (enqueue_run _ _ Hl Hd x)).
  rewrite (bind_ok _ _ _ _ _ (bulk_enqueue_run _ _ Hl Hd _ xs (or_introl eq_refl))).
  rewrite (bind_ok _ _ _ _ _ (bulk_push_run _ _ Hl Hd _ xs (or_intror eq_refl))).
  rewrite !Hsize. cbn [elems]. rewrite !length_app. cbn [length].
  repeat split; try (f_equal; lia).
  - destruct (elems d) as [|y ys] eqn:E; [congruence|].
    rewrite (bind_ok _ _ _ _ _ (dequeue_cons _ _ Hl Hd _ _ E)), Hsize.
    cbn [elems length]. f_equal. lia.
  - destruct (snoc_cases (elems d)) as [E | (ys & y & E)]; [congruence|].
    rewrite (bind_ok _ _ _ _ _ (pop_snoc _ _ Hl Hd _ _ E)), Hsize, E.
    cbn [elems]. rewrite length_app. cbn [length]. f_equal. lia.
Qed.

Lemma size_follows_calls_witness :
  fst ((Queue.enqueue (PyInt 3) ;; Queue.size) (built_from [PyInt 1; PyInt 2]))
  = Ok (Z.of_nat (length (contents (built_from [PyInt 1; PyInt 2]))) + 1).
Proof.
  apply (size_follows_calls (built_from [PyInt 1; PyInt 2]) (PyInt 3) []).
  reflexivity.
Defined.

(** X21.  A [push] between the creation of a stack iterator and its
    consumption: on a stack that held items, [list(it)] raises
    [RuntimeError]; on a stack that was empty the iterator has nothing to
    yield, ends normally and [list(it)] is the empty list. *)
Theorem stack_iteration_after_push (w : World) (x : PyVal) :
  quiescent w = true ->
  fst (iterate_after Stack.__iter__ (Stack.push x) w)
  = match contents w with
    | [] => Ok (PyList [])
    | _ :: _ => Raise (RuntimeError "deque mutated during iteration")
    end.
Proof.
  intros Hq. destruct (quiescent_inv _ Hq) as [Hl [d Hd]].
  rewrite (contents_lookup _ _ Hd). unfold iterate_after.
  rewrite (bind_ok _ _ _ _ _ (stack_iter_run _ _ Hl Hd)).
  rewrite (bind_ok _ _ _ _ _ (push_run _ _ Hl Hd x)).
  unfold deque.list_of_iter. cbn [deque.it_counter deque.drain].
  assert (Hne : state (mkDeque (elems d ++ [x]) (S (state d))) <> state d)
    by (cbn; lia).
  pose proof (next_mutated_reversed _ _ _ (store_lookup _ _ _ _ Hd)
                (state d) (length (elems d)) Hne) as Hnext.
  destruct (elems d) as [|y ys]; cbn [length] in Hnext.
  - rewrite (bind_ok _ _ _ _ _ (bind_ok _ _ _ _ _ Hnext)). reflexivity.
  - erewrite bind_raise; [reflexivity|]. apply bind_raise, Hnext.
Qed.

Lemma stack_iteration_after_push_witness :
  fst (iterate_after Stack.__iter__ (Stack.push (PyInt 1)) (Stack.__init__ []))
  = Ok (PyList []).
Proof.
  apply (stack_iteration_after_push (Stack.__init__ []) (PyInt 1)). reflexivity.
Defined.
